(** * vcable / vsock: error classifier, descriptor lifecycle and accept loop

    A shallow embedding of the Go package [vsock] of multiverse-os/vcable.
    Go values are modelled as follows.

    - [uint32] context IDs and ports are [N]; no arithmetic is performed on
      them by the package, so no wrap-around appears.
    - Go's [int] descriptors and [errno] numbers are [Z].
    - A Go [error] interface value is an element of [error]; a possibly nil
      interface is an [option].  The sentinels the package compares against
      by identity ([io.EOF], [os.ErrClosed], ...) are constructors of their
      own, so that [errors.New "EOF"] is not [io.EOF].
    - The kernel and the runtime poller are an oracle [Kernel]; every
      request sent to it is appended to the log of the [World].
    - [*os.File] objects live in a store inside the [World], because two
      calls on the same connection observe each other's effect on them. *)

From Stdlib Require Import ZArith NArith Lia Ascii DecimalString DecimalN.
From stdpp Require Import base option list strings.

Local Open Scope string_scope.
Local Open Scope Z_scope.

(** ** Constants of golang.org/x/sys/unix (linux) *)

Module unix.
Definition EBADF : Z := 9.
Definition EAGAIN : Z := 11.
Definition EINVAL : Z := 22.
Definition ECONNABORTED : Z := 103.
Definition ENOTCONN : Z := 107.
Definition SHUT_RD : Z := 0.
Definition SHUT_WR : Z := 1.
Definition AF_VSOCK : Z := 40.
Definition SOCK_STREAM : Z := 1.
Definition SOCK_CLOEXEC : Z := 524288.
Definition VMADDR_PORT_ANY : N := 4294967295.
Definition IOCTL_VM_SOCKETS_GET_LOCAL_CID : Z := 1977.

(** [unix.Sockaddr]: the VM-socket address and any other family. *)
Inductive Sockaddr :=
| SockaddrVM (CID Port : N)
| SockaddrOther (family : Z).
End unix.

(** ** Constants of the package (part_002, lines 14-43) *)

Definition Hypervisor : N := 0.
Definition Host : N := 2.
Definition cidReserved : N := 1.
Definition shutRd : Z := 0.
Definition shutWr : Z := 1.
Definition ebadf : Z := 9.
Definition enotconn : Z := 107.
Definition devVsock : string := "/dev/vsock".
Definition network : string := "vsock".

(** ** Addr *)

Record Addr := mkAddr { ContextID : N; Port : N }.

(** [fmt.Sprintf "%d"] on an unsigned integer. *)
Definition fmt_d (n : N) : string := NilZero.string_of_uint (N.to_uint n).

Definition Addr_Network (_ : Addr) : string := network.

Definition Addr_String (self : Addr) : string :=
  let host :=
    if (ContextID self =? Hypervisor)%N then
      "hypervisor(" ++ fmt_d (ContextID self) ++ ")"
    else if (ContextID self =? cidReserved)%N then
      "reserved(" ++ fmt_d (ContextID self) ++ ")"
    else if (ContextID self =? Host)%N then
      "host(" ++ fmt_d (ContextID self) ++ ")"
    else
      "vm(" ++ fmt_d (ContextID self) ++ ")" in
  host ++ ":" ++ fmt_d (Port self).

Definition fileName (self : Addr) : string :=
  Addr_Network self ++ ":" ++ Addr_String self.

(** ** Go error values *)

Inductive error :=
| Errno (e : Z)                      (* syscall.Errno / unix.Errno *)
| EOF                                (* io.EOF *)
| ErrClosed                          (* os.ErrClosed *)
| ErrInvalid                         (* os.ErrInvalid *)
| ErrDeadlineExceeded                (* os.ErrDeadlineExceeded *)
| ErrFileClosing                     (* internal/poll.ErrFileClosing *)
| errorString (s : string)           (* errors.New, fmt.Errorf *)
| PathError (Op Path : string) (Err : error)                       (* *os.PathError *)
| OpError (Op Net : string) (Source Addr : option Addr) (Err : error). (* *net.OpError *)

(** ** errOp (part_002, lines 45-86) *)

Inductive errOp :=
| opAccept | opClose | opDial | opListen | opRawControl | opRawRead
| opRawWrite | opRead | opSet | opSyscallConn | opWrite.

Definition errOp_String (self : errOp) : string :=
  match self with
  | opAccept => "accept"
  | opClose => "close"
  | opDial => "dial"
  | opListen => "listen"
  | opRawControl => "raw-control"
  | opRawRead => "raw-read"
  | opRawWrite => "raw-write"
  | opRead => "read"
  | opSet => "set"
  | opSyscallConn => "syscall-conn"
  | opWrite => "write"
  end.

(** [strings.Contains]. *)
Fixpoint Contains (s substr : string) : bool :=
  String.prefix substr s ||
  match s with
  | EmptyString => false
  | String _ s' => Contains s' substr
  end.

Definition string_eqb (a b : string) : bool := String.eqb a b.


(** ** The kernel and the runtime poller

    Every request the package sends to the operating system or to Go's
    runtime poller is a [syscall X], where [X] is the type of the answer. *)

Inductive sysres (A : Type) :=
| Ok (a : A)
| Fail (errno : Z).
Arguments Ok {A} a.
Arguments Fail {A} errno.

Inductive syscall : Type -> Type :=
| sys_socket (domain typ proto : Z) : syscall (sysres Z)
| sys_closeOnExec (fd : Z) : syscall unit
| sys_bind (fd : Z) (sa : unix.Sockaddr) : syscall (option Z)
| sys_listen (fd : Z) (backlog : Z) : syscall (option Z)
| sys_connect (fd : Z) (sa : unix.Sockaddr) : syscall (option Z)
| sys_getsockname (fd : Z) : syscall (sysres unix.Sockaddr)
| sys_setNonblock (fd : Z) (nonblocking : bool) : syscall (option Z)
| sys_close (fd : Z) : syscall (option Z)
| sys_accept4 (fd : Z) (flags : Z) : syscall (sysres (Z * unix.Sockaddr))
| sys_shutdown (fd : Z) (how : Z) : syscall (option Z)
| sys_open (path : string) : syscall (sysres Z)
| sys_ioctlGetUint32 (fd : Z) (req : Z) : syscall (sysres N)
| poll_prepareRead (fd : Z) : syscall (option error)
| poll_waitRead (fd : Z) : syscall (option error)
| poll_prepareWrite (fd : Z) : syscall (option error)
| poll_waitWrite (fd : Z) : syscall (option error)
| poll_read (fd : Z) (len : Z) : syscall (Z + error)
| poll_write (fd : Z) (len : Z) : syscall (Z * option error)
| poll_setDeadline (fd : Z) (t : Z) (mode : Z) : syscall (option error).

(** An entry of the log: a request without its answer type. *)
Inductive call :=
| Call : forall X : Type, syscall X -> call.
Arguments Call {X} c.

(** The oracle: the answer to the request issued as the [n]-th one. *)
Definition Kernel := forall X : Type, nat -> syscall X -> X.

(** [*os.File]: the descriptor it wraps, its name and whether [Close] ran. *)
Record File := mkFile { sysfd : Z; name : string; closed : bool }.

Record World := mkWorld {
  log : list call;      (* requests issued so far, oldest first *)
  files : list File     (* the os.File objects, by handle *)
}.

(** How a Go call ends: it returns, it panics, or the model has no fuel
    left for a loop that is still waiting. *)
Inductive outcome (A : Type) :=
| Done (a : A)
| Panic (msg : string)
| Diverge.
Arguments Done {A} a.
Arguments Panic {A} msg.
Arguments Diverge {A}.

Definition M (A : Type) : Type := World -> outcome A * World.

Definition ret {A} (a : A) : M A := fun w => (Done a, w).
Definition panic {A} (msg : string) : M A := fun w => (Panic msg, w).
Definition diverge {A} : M A := fun w => (Diverge, w).
Definition bind {A B} (m : M A) (k : A -> M B) : M B :=
  fun w =>
    match m w with
    | (Done a, w') => k a w'
    | (Panic msg, w') => (Panic msg, w')
    | (Diverge, w') => (Diverge, w')
    end.

Notation "'let*' x ':=' m 'in' k" := (bind m (fun x => k))
  (at level 10, x pattern, m at level 100, k at level 200).

(** Does the log entry release descriptor [fd]? *)
Definition is_close (fd : Z) (c : call) : bool :=
  match c with
  | Call (sys_close fd') => fd' =? fd
  | _ => false
  end.

(** Was descriptor [fd] released by a request of the log? *)
Definition released (fd : Z) (l : list call) : bool := existsb (is_close fd) l.

(** Number of accept requests in a log. *)
Definition is_accept4 (c : call) : bool :=
  match c with
  | Call (sys_accept4 _ _) => true
  | _ => false
  end.

(** Listener and connection descriptors (part_003, lines 87-90, 151-154):
    the raw number, and the file used once in non-blocking mode. *)
Record sysListenFD := mkListenFD { lfd_fd : Z; lfd_f : option nat }.
Record sysConnFD := mkConnFD { cfd_fd : Z; cfd_f : option nat }.

Record Conn := mkConn { conn_fd : sysConnFD; local : Addr; remote : Addr }.
Record listener := mkListener { listener_fd : sysListenFD; addr : Addr }.
Record VsockListener := mkVsockListener { vl_listener : listener }.

(** [deadlineType] (part_002, lines 180-187). *)
Definition deadline : Z := 0.
Definition readDeadline : Z := 1.
Definition writeDeadline : Z := 2.

(** [fmt.Sprintf "%d"] on a signed integer. *)
Definition fmt_dZ (n : Z) : string := NilZero.string_of_int (Z.to_int n).

(** ** Sample platforms

    Concrete kernels and worlds on which the model is run in the examples
    at the end of the file. *)

(** A few entries of the errno message table of linux; other numbers
    are rendered the way [syscall.Errno.Error] renders unknown ones. *)
Definition sample_errnoText (e : Z) : string :=
  if e =? 2 then "no such file or directory"
  else if e =? 9 then "bad file descriptor"
  else if e =? 11 then "resource temporarily unavailable"
  else if e =? 22 then "invalid argument"
  else if e =? 24 then "too many open files"
  else if e =? 98 then "address already in use"
  else if e =? 103 then "software caused connection abort"
  else if e =? 107 then "transport endpoint is not connected"
  else "errno " ++ fmt_dZ e.

(** A kernel on which every request succeeds: descriptor 3 for a new
    socket, local address vm(3):1024, a peer host(2):50000 on descriptor 4
    for every accept, and context ID 3. *)
Definition quiet : Kernel :=
  fun X _ c =>
    match c in syscall X return X with
    | sys_socket _ _ _ => Ok 3
    | sys_closeOnExec _ => tt
    | sys_bind _ _ => None
    | sys_listen _ _ => None
    | sys_connect _ _ => None
    | sys_getsockname _ => Ok (unix.SockaddrVM 3 1024)
    | sys_setNonblock _ _ => None
    | sys_close _ => None
    | sys_accept4 _ _ => Ok (4, unix.SockaddrVM 2 50000)
    | sys_shutdown _ _ => None
    | sys_open _ => Ok 5
    | sys_ioctlGetUint32 _ _ => Ok 3%N
    | poll_prepareRead _ => None
    | poll_waitRead _ => None
    | poll_prepareWrite _ => None
    | poll_waitWrite _ => None
    | poll_read _ len => inl len
    | poll_write _ len => (len, None)
    | poll_setDeadline _ _ _ => None
    end.

(** [k], except that the listed request gets the given answer. *)
Definition bind_answers (r : option Z) (k : Kernel) : Kernel :=
  fun X t c =>
    match c in syscall X return X -> X with
    | sys_bind _ _ => fun _ => r
    | _ => fun d => d
    end (k X t c).

Definition connect_answers (r : option Z) (k : Kernel) : Kernel :=
  fun X t c =>
    match c in syscall X return X -> X with
    | sys_connect _ _ => fun _ => r
    | _ => fun d => d
    end (k X t c).

Definition getsockname_answers (r : sysres unix.Sockaddr) (k : Kernel) : Kernel :=
  fun X t c =>
    match c in syscall X return X -> X with
    | sys_getsockname _ => fun _ => r
    | _ => fun d => d
    end (k X t c).


Definition read_answers (r : Z + error) (k : Kernel) : Kernel :=
  fun X t c =>
    match c in syscall X return X -> X with
    | poll_read _ _ => fun _ => r
    | _ => fun d => d
    end (k X t c).

(** [k], except that the accept request issued as the [t]-th request of
    the run is answered by [script t]. *)
Definition accept_answers (script : nat -> sysres (Z * unix.Sockaddr)) (k : Kernel)
  : Kernel :=
  fun X t c =>
    match c in syscall X return X -> X with
    | sys_accept4 _ _ => fun _ => script t
    | _ => fun d => d
    end (k X t c).

(** The world before the first request. *)
Definition boot : World := mkWorld [] [].

(** A listener on vm(3):1024 whose descriptor 3 is in non-blocking mode,
    and the world that holds its file. *)
Definition sample_listener : VsockListener :=
  mkVsockListener (mkListener (mkListenFD 3 (Some 0%nat)) (mkAddr 3 1024)).
Definition sample_listener_world : World :=
  mkWorld [] [mkFile 3 "vsock-listen" false].

(** A connection from vm(3):1024 to host(2):50000 on descriptor 4, and the
    world that holds its file. *)
Definition sample_conn : Conn :=
  mkConn (mkConnFD 4 (Some 0%nat)) (mkAddr 3 1024) (mkAddr 2 50000).
Definition sample_conn_file : File := mkFile 4 "vsock:vm(3):1024" false.
Definition sample_conn_world : World := mkWorld [] [sample_conn_file].

(** [k], except that opening a file gets the given answer. *)
Definition open_answers (r : sysres Z) (k : Kernel) : Kernel :=
  fun X t c =>
    match c in syscall X return X -> X with
    | sys_open _ => fun _ => r
    | _ => fun d => d
    end (k X t c).

(** [k], except that the socket request issued as the [t]-th request of
    the run is answered by [script t]. *)
Definition socket_answers (script : nat -> sysres Z) (k : Kernel) : Kernel :=
  fun X t c =>
    match c in syscall X return X -> X with
    | sys_socket _ _ _ => fun _ => script t
    | _ => fun d => d
    end (k X t c).

(** A kernel that predates [SOCK_CLOEXEC]: the first socket request is
    refused with [EINVAL], the next one yields descriptor 3. *)
Definition old_kernel : Kernel :=
  socket_answers (fun t => match t with O => Fail unix.EINVAL | _ => Ok 3 end) quiet.

(** The sample connection after its file was closed. *)
Definition sample_closed_file : File := mkFile 4 "vsock:vm(3):1024" true.
Definition sample_closed_world : World := mkWorld [] [sample_closed_file].

Section Package.

Set Default Proof Using "Type".

(** Parameters that are not part of the package: the errno message table
    of [syscall], the value of [unix.SOMAXCONN], and the behaviour of the
    kernel and of the runtime poller. *)
Variable errnoText : Z -> string.
Variable SOMAXCONN : Z.
Variable K : Kernel.

(** *** The error classifier (part_002, part_003) *)


(** [err.Error()] *)
Fixpoint Error (err : error) : string :=
  match err with
  | Errno e => errnoText e
  | EOF => "EOF"
  | ErrClosed => "file already closed"
  | ErrInvalid => "invalid argument"
  | ErrDeadlineExceeded => "i/o timeout"
  | ErrFileClosing => "use of closed file"
  | errorString s => s
  | PathError op path e => op ++ " " ++ path ++ ": " ++ Error e
  | OpError op net src addr e =>
      let s := op in
      let s := if string_eqb net "" then s else s ++ " " ++ net in
      let s := match src with Some a => s ++ " " ++ Addr_String a | None => s end in
      let s := match addr with
               | Some a =>
                   (match src with Some _ => s ++ "->" | None => s ++ " " end)
                     ++ Addr_String a
               | None => s
               end in
      s ++ ": " ++ Error e
  end.

(** [isErrno] (part_003, lines 202-212). *)
Definition isErrno (err : error) (errno : Z) : bool :=
  if errno =? ebadf then
    match err with Errno e => e =? unix.EBADF | _ => false end
  else if errno =? enotconn then
    match err with Errno e => e =? unix.ENOTCONN | _ => false end
  else false.

Definition is_EOF (err : error) : bool :=
  match err with EOF => true | _ => false end.
Definition is_ErrClosed (err : error) : bool :=
  match err with ErrClosed => true | _ => false end.

(** The first switch of [opError]: a [*os.PathError] whose path is not
    the device is replaced by the error it wraps. *)
Definition unwrapPathError (err : error) : error :=
  match err with
  | PathError _ path inner => if string_eqb path devVsock then err else inner
  | _ => err
  end.

Definition closedCause : error := errorString "use of closed network connection".

(** [opError] (part_002, lines 268-309). *)
Definition opError (op : errOp) (err : option error) (local remote : option Addr)
  : option error :=
  match err with
  | None => None
  | Some err =>
      let err := unwrapPathError err in
      if is_EOF err || isErrno err enotconn then Some EOF
      else
        let err :=
          if is_ErrClosed err || isErrno err ebadf
             || Contains (Error err) "use of closed"
          then closedCause else err in
        let '(source, addr) :=
          match op with
          | opClose | opDial | opRawRead | opRawWrite | opRead | opWrite =>
              (local, remote)
          | opAccept | opListen | opRawControl | opSet | opSyscallConn =>
              (None, local)
          end in
        Some (OpError (errOp_String op) network source addr err)
  end.

(** Issue a request: the oracle answers, the request is logged. *)
Definition sys {X : Type} (c : syscall X) : M X :=
  fun w => (Done (K X (length (log w)) c),
            mkWorld (log w ++ [Call c]) (files w)).

Definition to_error (r : option Z) : option error :=
  match r with Some e => Some (Errno e) | None => None end.

(** *** golang.org/x/sys/unix wrappers *)

Definition unix_Socket (domain typ proto : Z) : M (Z * option error) :=
  let* r := sys (sys_socket domain typ proto) in
  ret (match r with Ok fd => (fd, None) | Fail e => (-1, Some (Errno e)) end).

Definition unix_CloseOnExec (fd : Z) : M unit := sys (sys_closeOnExec fd).

Definition unix_Bind (fd : Z) (sa : unix.Sockaddr) : M (option error) :=
  let* r := sys (sys_bind fd sa) in ret (to_error r).

Definition unix_Listen (fd n : Z) : M (option error) :=
  let* r := sys (sys_listen fd n) in ret (to_error r).

Definition unix_Connect (fd : Z) (sa : unix.Sockaddr) : M (option error) :=
  let* r := sys (sys_connect fd sa) in ret (to_error r).

Definition unix_Getsockname (fd : Z) : M (option unix.Sockaddr * option error) :=
  let* r := sys (sys_getsockname fd) in
  ret (match r with Ok sa => (Some sa, None) | Fail e => (None, Some (Errno e)) end).

Definition unix_SetNonblock (fd : Z) (nonblocking : bool) : M (option error) :=
  let* r := sys (sys_setNonblock fd nonblocking) in ret (to_error r).

Definition unix_Close (fd : Z) : M (option error) :=
  let* r := sys (sys_close fd) in ret (to_error r).

Definition unix_Shutdown (fd how : Z) : M (option error) :=
  let* r := sys (sys_shutdown fd how) in ret (to_error r).

(** On failure [unix.Accept4] returns descriptor -1 and a nil address. *)
Definition unix_Accept4 (fd flags : Z)
  : M (Z * option unix.Sockaddr * option error) :=
  let* r := sys (sys_accept4 fd flags) in
  ret (match r with
       | Ok (nfd, sa) => (nfd, Some sa, None)
       | Fail e => (-1, None, Some (Errno e))
       end).

Definition unix_IoctlGetUint32 (fd req : Z) : M (N * option error) :=
  let* r := sys (sys_ioctlGetUint32 fd req) in
  ret (match r with Ok v => (v, None) | Fail e => (0%N, Some (Errno e)) end).

(** *** Go's [os.File], as far as the package uses it *)

Definition allocFile (fd : Z) (name : string) : M nat :=
  fun w => (Done (length (files w)),
            mkWorld (log w) (files w ++ [mkFile fd name false])).

(** [os.NewFile] returns nil for an invalid descriptor. *)
Definition os_NewFile (fd : Z) (name : string) : M (option nat) :=
  if fd <? 0 then ret None else let* h := allocFile fd name in ret (Some h).

(** The object behind a [*os.File]; [None] for a nil pointer. *)
Definition getFile (f : option nat) : M (option (nat * File)) :=
  fun w => (Done (match f with
                  | Some h => match files w !! h with
                              | Some file => Some (h, file)
                              | None => None
                              end
                  | None => None
                  end), w).

Definition markClosed (h : nat) (file : File) : M unit :=
  fun w => (Done tt,
            mkWorld (log w) (<[h := mkFile (sysfd file) (name file) true]> (files w))).

(** [wrapErr] of [os.File] *)
Definition wrapErr (op : string) (file : File) (e : error) : error :=
  match e with
  | EOF => EOF
  | ErrFileClosing => PathError op (name file) ErrClosed
  | _ => PathError op (name file) e
  end.

Definition os_Open (path : string) : M (option nat * option error) :=
  let* r := sys (sys_open path) in
  match r with
  | Fail e => ret (None, Some (PathError "open" path (Errno e)))
  | Ok fd => let* h := allocFile fd path in ret (Some h, None)
  end.

Definition os_File_Fd (f : option nat) : M Z :=
  let* o := getFile f in
  ret (match o with Some (_, file) => sysfd file | None => -1 end).

(** The first [Close] releases the descriptor; a later one reports
    [os.ErrClosed] inside a [*os.PathError]. *)
Definition os_File_Close (f : option nat) : M (option error) :=
  let* o := getFile f in
  match o with
  | None => ret (Some ErrInvalid)
  | Some (h, file) =>
      if closed file then ret (Some (PathError "close" (name file) ErrClosed))
      else
        let* _ := markClosed h file in
        let* r := sys (sys_close (sysfd file)) in
        ret (match r with
             | Some e => Some (PathError "close" (name file) (Errno e))
             | None => None
             end)
  end.

Definition os_File_Read (f : option nat) (len : Z) : M (Z * option error) :=
  let* o := getFile f in
  match o with
  | None => ret (0, Some ErrInvalid)
  | Some (_, file) =>
      if closed file then ret (0, Some (PathError "read" (name file) ErrClosed))
      else
        let* r := sys (poll_read (sysfd file) len) in
        ret (match r with
             | inl n => (n, None)
             | inr e => (0, Some (wrapErr "read" file e))
             end)
  end.

Definition os_File_Write (f : option nat) (len : Z) : M (Z * option error) :=
  let* o := getFile f in
  match o with
  | None => ret (0, Some ErrInvalid)
  | Some (_, file) =>
      if closed file then ret (0, Some (PathError "write" (name file) ErrClosed))
      else
        let* (n, e) := sys (poll_write (sysfd file) len) in
        let n := if n <? 0 then 0 else n in
        let err := if n =? len then None else Some (errorString "short write") in
        ret (n, match e with Some e => Some (wrapErr "write" file e) | None => err end)
  end.

Definition os_File_SetDeadline (f : option nat) (t : Z) (mode : Z) : M (option error) :=
  let* o := getFile f in
  match o with
  | None => ret (Some ErrInvalid)
  | Some (_, file) =>
      if closed file then ret (Some ErrFileClosing)
      else sys (poll_setDeadline (sysfd file) t mode)
  end.

(** [SyscallConn] of [os.File]: only a nil file is refused. *)
Definition os_File_SyscallConn (f : option nat) : M (option nat * option error) :=
  let* o := getFile f in
  ret (match o with
       | Some (h, _) => (Some h, None)
       | None => (None, Some ErrInvalid)
       end).

(** [RawConn.Control]: the callback runs once on the descriptor.  [L] is
    the state of the variables the closure captures. *)
Definition os_rawConn_Control {L : Type} (rc : option nat)
    (fn : Z -> L -> M L) (l : L) : M (option error * L) :=
  let* o := getFile rc in
  match o with
  | None => ret (Some ErrInvalid, l)
  | Some (_, file) =>
      if closed file then ret (Some ErrFileClosing, l)
      else let* l' := fn (sysfd file) l in ret (None, l')
  end.

(** The loop of [poll.FD.RawRead] and [poll.FD.RawWrite]: call the
    callback until it reports done, waiting for readiness in between. *)
Fixpoint rawLoop {L : Type} (fuel : nat) (wait : Z -> syscall (option error))
    (fn : Z -> L -> M (bool * L)) (fd : Z) (l : L) : M (option error * L) :=
  match fuel with
  | O => diverge
  | S fuel' =>
      let* (done, l1) := fn fd l in
      if done then ret (None, l1)
      else
        let* e := sys (wait fd) in
        match e with
        | Some err => ret (Some err, l1)
        | None => rawLoop fuel' wait fn fd l1
        end
  end.

Definition os_rawConn_Read {L : Type} (fuel : nat) (rc : option nat)
    (fn : Z -> L -> M (bool * L)) (l : L) : M (option error * L) :=
  let* o := getFile rc in
  match o with
  | None => ret (Some ErrInvalid, l)
  | Some (_, file) =>
      if closed file then ret (Some ErrFileClosing, l)
      else
        let* e := sys (poll_prepareRead (sysfd file)) in
        match e with
        | Some err => ret (Some err, l)
        | None => rawLoop fuel poll_waitRead fn (sysfd file) l
        end
  end.

Definition os_rawConn_Write {L : Type} (fuel : nat) (rc : option nat)
    (fn : Z -> L -> M (bool * L)) (l : L) : M (option error * L) :=
  let* o := getFile rc in
  match o with
  | None => ret (Some ErrInvalid, l)
  | Some (_, file) =>
      if closed file then ret (Some ErrFileClosing, l)
      else
        let* e := sys (poll_prepareWrite (sysfd file)) in
        match e with
        | Some err => ret (Some err, l)
        | None => rawLoop fuel poll_waitWrite fn (sysfd file) l
        end
  end.

(** *** Descriptors (part_003) *)

(** [contextID] (part_003, lines 64-72); the deferred [f.Close] runs
    after the ioctl. *)
Definition contextID : M (N * option error) :=
  let* (f, err) := os_Open devVsock in
  match err with
  | Some e => ret (0%N, Some e)
  | None =>
      let* fd := os_File_Fd f in
      let* r := unix_IoctlGetUint32 fd unix.IOCTL_VM_SOCKETS_GET_LOCAL_CID in
      let* _ := os_File_Close f in
      ret r
  end.

Definition ContextID_ : M (N * option error) := contextID.

(** [socket] (part_003, lines 181-200).  The fork lock taken on the
    fallback path has no effect on a single caller and is left out. *)
Definition socket : M (Z * option error) :=
  let* (fd, err) :=
    unix_Socket unix.AF_VSOCK (Z.lor unix.SOCK_STREAM unix.SOCK_CLOEXEC) 0 in
  match err with
  | None => ret (fd, None)
  | Some (Errno e) =>
      if e =? unix.EINVAL then
        let* (fd, err) := unix_Socket unix.AF_VSOCK unix.SOCK_STREAM 0 in
        match err with
        | Some _ => ret (0, err)
        | None => let* _ := unix_CloseOnExec fd in ret (fd, None)
        end
      else ret (0, err)
  | Some _ => ret (0, err)
  end.

Definition newListenFD : M (option sysListenFD * option error) :=
  let* (fd, err) := socket in
  match err with
  | Some _ => ret (None, err)
  | None => ret (Some (mkListenFD fd None), None)
  end.

Definition newConnFD : M (option sysConnFD * option error) :=
  let* (fd, err) := socket in
  match err with
  | Some _ => ret (None, err)
  | None => ret (Some (mkConnFD fd None), None)
  end.

Definition sysListenFD_Bind (self : sysListenFD) (sa : unix.Sockaddr) :=
  unix_Bind (lfd_fd self) sa.
Definition sysListenFD_Getsockname (self : sysListenFD) :=
  unix_Getsockname (lfd_fd self).
Definition sysListenFD_Listen (self : sysListenFD) (n : Z) :=
  unix_Listen (lfd_fd self) n.
Definition sysListenFD_EarlyClose (self : sysListenFD) := unix_Close (lfd_fd self).
Definition sysListenFD_Close (self : sysListenFD) := os_File_Close (lfd_f self).

(** [setNonblocking] (part_003, lines 241-249) stores the file in the
    receiver; the updated receiver is returned next to the error. *)
Definition sysListenFD_setNonblocking (self : sysListenFD) (name : string)
  : M (option error * sysListenFD) :=
  let* err := unix_SetNonblock (lfd_fd self) true in
  match err with
  | Some _ => ret (err, self)
  | None =>
      let* f := os_NewFile (lfd_fd self) name in
      ret (None, mkListenFD (lfd_fd self) f)
  end.
Definition sysListenFD_SetNonblocking := sysListenFD_setNonblocking.

Definition sysListenFD_setDeadline (self : sysListenFD) (t : Z) :=
  os_File_SetDeadline (lfd_f self) t deadline.
Definition sysListenFD_SetDeadline := sysListenFD_setDeadline.

(** Is the error of an accept attempt one of the two transient ones? *)
Definition transient (err : option error) : bool :=
  match err with
  | Some (Errno e) => (e =? unix.EAGAIN) || (e =? unix.ECONNABORTED)
  | _ => false
  end.

(** The closure passed to [rawConn.Read] by [accept4]; it assigns the
    three named results and asks for a retry on a transient error. *)
Definition accept4_callback (flags : Z) (fd : Z)
    (_ : Z * option unix.Sockaddr * option error)
  : M (bool * (Z * option unix.Sockaddr * option error)) :=
  let* (newFD, socketAddress, err) := unix_Accept4 fd flags in
  ret (negb (transient err), (newFD, socketAddress, err)).

(** [accept4] (part_003, lines 218-237).  The error returned by
    [rawConn.Read] is dropped, and so is the named result [err]: the
    last statement returns a nil error. *)
Definition sysListenFD_accept4 (fuel : nat) (self : sysListenFD) (flags : Z)
  : M (Z * option unix.Sockaddr * option error) :=
  let* (rawConn, err) := os_File_SyscallConn (lfd_f self) in
  match err with
  | Some _ => ret (0, None, err)
  | None =>
      let* (_, (newFD, socketAddress, _)) :=
        os_rawConn_Read fuel rawConn (accept4_callback flags) (0, None, None) in
      ret (newFD, socketAddress, None)
  end.

(** [Accept4] (part_003, lines 113-121). *)
Definition sysListenFD_Accept4 (fuel : nat) (self : sysListenFD) (flags : Z)
  : M (option sysConnFD * option unix.Sockaddr * option error) :=
  let* (newFD, socketAddress, err) := sysListenFD_accept4 fuel self flags in
  match err with
  | Some _ => ret (None, None, err)
  | None => ret (Some (mkConnFD newFD None), socketAddress, None)
  end.

Definition sysConnFD_Connect (self : sysConnFD) (sa : unix.Sockaddr) :=
  unix_Connect (cfd_fd self) sa.
Definition sysConnFD_Getsockname (self : sysConnFD) :=
  unix_Getsockname (cfd_fd self).
Definition sysConnFD_EarlyClose (self : sysConnFD) := unix_Close (cfd_fd self).
Definition sysConnFD_Close (self : sysConnFD) := os_File_Close (cfd_f self).
Definition sysConnFD_Read (self : sysConnFD) (len : Z) := os_File_Read (cfd_f self) len.
Definition sysConnFD_Write (self : sysConnFD) (len : Z) := os_File_Write (cfd_f self) len.

Definition sysConnFD_setNonblocking (self : sysConnFD) (name : string)
  : M (option error * sysConnFD) :=
  let* err := unix_SetNonblock (cfd_fd self) true in
  match err with
  | Some _ => ret (err, self)
  | None =>
      let* f := os_NewFile (cfd_fd self) name in
      ret (None, mkConnFD (cfd_fd self) f)
  end.
Definition sysConnFD_SetNonblocking := sysConnFD_setNonblocking.

(** [shutdown] (part_003, lines 251-265). *)
Definition sysConnFD_shutdown (self : sysConnFD) (how : Z) : M (option error) :=
  let* (rc, err) := os_File_SyscallConn (cfd_f self) in
  match err with
  | Some _ => ret err
  | None =>
      let* (doErr, err) :=
        os_rawConn_Control rc (fun fd _ => unix_Shutdown fd how) None in
      match doErr with
      | Some _ => ret doErr
      | None => ret err
      end
  end.

Definition invalidHow (how : Z) : error :=
  errorString ("vsock: sysConnFD.Shutdown method invoked with invalid how constant: "
                 ++ fmt_dZ how).

(** Which branch of the switch in [Shutdown] a direction takes. *)
Definition Shutdown_accepts (how : Z) : bool :=
  (how =? unix.SHUT_RD) || (how =? unix.SHUT_WR).

(** [Shutdown] (part_003, lines 166-173). *)
Definition sysConnFD_Shutdown (self : sysConnFD) (how : Z) : M (option error) :=
  if Shutdown_accepts how then sysConnFD_shutdown self how
  else ret (Some (invalidHow how)).

(** [setDeadline] (part_003, lines 279-289). *)
Definition sysConnFD_setDeadline (self : sysConnFD) (t : Z) (typ : Z) : M (option error) :=
  if typ =? deadline then os_File_SetDeadline (cfd_f self) t deadline
  else if typ =? readDeadline then os_File_SetDeadline (cfd_f self) t readDeadline
  else if typ =? writeDeadline then os_File_SetDeadline (cfd_f self) t writeDeadline
  else ret (Some (errorString
    ("vsock: sysConnFD.SetDeadline method invoked with invalid deadline type constant: "
       ++ fmt_dZ typ))).
Definition sysConnFD_SetDeadline := sysConnFD_setDeadline.

Definition sysConnFD_syscallConn (self : sysConnFD) := os_File_SyscallConn (cfd_f self).
Definition sysConnFD_SyscallConn := sysConnFD_syscallConn.

(** *** Connections (connection.go) *)

(** [newConn] (connection.go, lines 7-17). *)
Definition newConn (cfd : sysConnFD) (local remote : Addr)
  : M (option Conn * option error) :=
  let* (err, cfd) := sysConnFD_SetNonblocking cfd (fileName local) in
  match err with
  | Some _ => ret (None, err)
  | None => ret (Some (mkConn cfd local remote), None)
  end.

(** The type assertion of [sa] to a pointer to [unix.SockaddrVM]: it panics on a nil
    interface and on any other address type. *)
Definition assertSockaddrVM (sa : option unix.Sockaddr) : M (N * N) :=
  match sa with
  | Some (unix.SockaddrVM cid port) => ret (cid, port)
  | Some (unix.SockaddrOther _) =>
      panic "interface conversion: unix.Sockaddr is not *unix.SockaddrVM"
  | None =>
      panic "interface conversion: unix.Sockaddr is nil, not *unix.SockaddrVM"
  end.

(** The statements of [dialLinux] (connection.go, lines 35-61); the
    result pair is the pair of named results [c] and [err]. *)
Definition dialLinux_body (cfd : sysConnFD) (cid port : N)
  : M (option Conn * option error) :=
  let rsa := unix.SockaddrVM cid port in
  let* err := sysConnFD_Connect cfd rsa in
  match err with
  | Some _ => ret (None, err)
  | None =>
      let* (lsa, err) := sysConnFD_Getsockname cfd in
      match err with
      | Some _ => ret (None, err)
      | None =>
          let* (lcid, lport) := assertSockaddrVM lsa in
          newConn cfd (mkAddr lcid lport) (mkAddr cid port)
      end
  end.

(** [dialLinux] (connection.go, lines 28-62): the deferred closure reads
    the named result [err] once the body has returned.  When the type
    assertion panics [err] is nil, so the closure does nothing. *)
Definition dialLinux (cfd : sysConnFD) (cid port : N)
  : M (option Conn * option error) :=
  let* (c, err) := dialLinux_body cfd cid port in
  match err with
  | Some _ => let* _ := sysConnFD_EarlyClose cfd in ret (c, err)
  | None => ret (c, err)
  end.

(** [dial] (connection.go, lines 19-26). *)
Definition dial (cid port : N) : M (option Conn * option error) :=
  let* (cfd, err) := newConnFD in
  match cfd, err with
  | Some cfd, None => dialLinux cfd cid port
  | _, _ => ret (None, err)
  end.

(** *** Listeners (part_001) *)

(** [listener.Accept] (part_001, lines 21-38). *)
Definition listener_Accept (fuel : nat) (self : listener)
  : M (option Conn * option error) :=
  let* (cfd, sa, err) :=
    sysListenFD_Accept4 fuel (listener_fd self) unix.SOCK_CLOEXEC in
  match err with
  | Some _ => ret (None, err)
  | None =>
      let* (cid, port) := assertSockaddrVM sa in
      match cfd with
      | Some cfd => newConn cfd (addr self) (mkAddr cid port)
      | None => panic "invalid memory address or nil pointer dereference"
      end
  end.

Definition listener_Close (self : listener) := sysListenFD_Close (listener_fd self).
Definition listener_SetDeadline (self : listener) (t : Z) :=
  sysListenFD_SetDeadline (listener_fd self) t.

(** The statements of [listenLinux] (part_001, lines 57-95).  The first
    component is the pair the function returns; the second is the value
    the local variable [err] of line 50 holds at that moment.  The [err]
    of an [if err := ...; err != nil] statement is a new variable of that
    statement, so only [Getsockname] assigns the one of line 50. *)
Definition listenLinux_body (lfd : sysListenFD) (cid port : N)
  : M ((option VsockListener * option error) * option error) :=
  let port := if (port =? 0)%N then unix.VMADDR_PORT_ANY else port in
  let sa := unix.SockaddrVM cid port in
  let* err' := sysListenFD_Bind lfd sa in
  match err' with
  | Some _ => ret ((None, err'), None)
  | None =>
      let* err' := sysListenFD_Listen lfd SOMAXCONN in
      match err' with
      | Some _ => ret ((None, err'), None)
      | None =>
          let* (lsa, err) := sysListenFD_Getsockname lfd in
          match err with
          | Some _ => ret ((None, err), err)
          | None =>
              let* (err', lfd) := sysListenFD_SetNonblocking lfd "vsock-listen" in
              match err' with
              | Some _ => ret ((None, err'), None)
              | None =>
                  let* (lcid, lport) := assertSockaddrVM lsa in
                  ret ((Some (mkVsockListener
                                (mkListener lfd (mkAddr lcid lport))), None),
                       None)
              end
          end
      end
  end.

(** [listenLinux] (part_001, lines 49-96): the deferred closure reads
    the local variable [err], not the returned error. *)
Definition listenLinux (lfd : sysListenFD) (cid port : N)
  : M (option VsockListener * option error) :=
  let* (result, err) := listenLinux_body lfd cid port in
  match err with
  | Some _ => let* _ := sysListenFD_EarlyClose lfd in ret result
  | None => ret result
  end.

(** [listen] (part_001, lines 40-47). *)
Definition listen (cid port : N) : M (option VsockListener * option error) :=
  let* (lfd, err) := newListenFD in
  match lfd, err with
  | Some lfd, None => listenLinux lfd cid port
  | _, _ => ret (None, err)
  end.

(** *** The public surface (part_002, part_003) *)

(** [Listen] (part_002, lines 88-105). *)
Definition Listen (port : N) : M (option VsockListener * option error) :=
  let* (cid, err) := ContextID_ in
  match err with
  | Some _ => ret (None, opError opListen err None None)
  | None =>
      let* (l, err) := listen cid port in
      match err with
      | Some _ => ret (None, opError opListen err (Some (mkAddr cid port)) None)
      | None => ret (l, None)
      end
  end.

Definition VsockListener_Addr (self : VsockListener) : Addr := addr (vl_listener self).

Definition VsockListener_opError (self : VsockListener) (op : errOp)
    (err : option error) : option error :=
  opError op err (Some (VsockListener_Addr self)) None.

(** [VsockListener.Accept] (part_002, lines 113-120). *)
Definition VsockListener_Accept (fuel : nat) (self : VsockListener)
  : M (option Conn * option error) :=
  let* (c, err) := listener_Accept fuel (vl_listener self) in
  match err with
  | Some _ => ret (None, VsockListener_opError self opAccept err)
  | None => ret (c, None)
  end.

Definition VsockListener_Close (self : VsockListener) : M (option error) :=
  let* err := listener_Close (vl_listener self) in
  ret (VsockListener_opError self opClose err).

Definition VsockListener_SetDeadline (self : VsockListener) (t : Z) : M (option error) :=
  let* err := listener_SetDeadline (vl_listener self) t in
  ret (VsockListener_opError self opSet err).


Definition Conn_opError (c : Conn) (op : errOp) (err : option error) : option error :=
  opError op err (Some (local c)) (Some (remote c)).

(** [Conn] methods (part_002, lines 155-213). *)
Definition Conn_Close (self : Conn) : M (option error) :=
  let* err := sysConnFD_Close (conn_fd self) in
  ret (Conn_opError self opClose err).

Definition Conn_CloseRead (self : Conn) : M (option error) :=
  let* err := sysConnFD_Shutdown (conn_fd self) shutRd in
  ret (Conn_opError self opClose err).

Definition Conn_CloseWrite (self : Conn) : M (option error) :=
  let* err := sysConnFD_Shutdown (conn_fd self) shutWr in
  ret (Conn_opError self opClose err).

Definition Conn_Read (self : Conn) (len : Z) : M (Z * option error) :=
  let* (n, err) := sysConnFD_Read (conn_fd self) len in
  match err with
  | Some _ => ret (n, Conn_opError self opRead err)
  | None => ret (n, None)
  end.

Definition Conn_Write (self : Conn) (len : Z) : M (Z * option error) :=
  let* (n, err) := sysConnFD_Write (conn_fd self) len in
  match err with
  | Some _ => ret (n, Conn_opError self opWrite err)
  | None => ret (n, None)
  end.

Definition Conn_SetDeadline (self : Conn) (t : Z) : M (option error) :=
  let* err := sysConnFD_SetDeadline (conn_fd self) t deadline in
  ret (Conn_opError self opSet err).

Definition Conn_SetReadDeadline (self : Conn) (t : Z) : M (option error) :=
  let* err := sysConnFD_SetDeadline (conn_fd self) t readDeadline in
  ret (Conn_opError self opSet err).

Definition Conn_SetWriteDeadline (self : Conn) (t : Z) : M (option error) :=
  let* err := sysConnFD_SetDeadline (conn_fd self) t writeDeadline in
  ret (Conn_opError self opSet err).

(** [rawConn] (part_002, lines 219-239). *)
Record rawConn := mkRawConn { rc : option nat; rc_local : Addr; rc_remote : Addr }.

Definition Conn_SyscallConn (self : Conn) : M (option rawConn * option error) :=
  let* (rc, err) := sysConnFD_SyscallConn (conn_fd self) in
  match err with
  | Some _ => ret (None, Conn_opError self opSyscallConn err)
  | None => ret (Some (mkRawConn rc (local self) (remote self)), None)
  end.

Definition rawConn_opError (self : rawConn) (op : errOp) (err : option error) :=
  opError op err (Some (rc_local self)) (Some (rc_remote self)).

Definition rawConn_Control {L : Type} (self : rawConn) (fn : Z -> L -> M L) (l : L)
  : M (option error * L) :=
  let* (err, l) := os_rawConn_Control (rc self) fn l in
  ret (rawConn_opError self opRawControl err, l).

Definition rawConn_Read {L : Type} (fuel : nat) (self : rawConn)
    (fn : Z -> L -> M (bool * L)) (l : L) : M (option error * L) :=
  let* (err, l) := os_rawConn_Read fuel (rc self) fn l in
  ret (rawConn_opError self opRawRead err, l).

Definition rawConn_Write {L : Type} (fuel : nat) (self : rawConn)
    (fn : Z -> L -> M (bool * L)) (l : L) : M (option error * L) :=
  let* (err, l) := os_rawConn_Write fuel (rc self) fn l in
  ret (rawConn_opError self opRawWrite err, l).

(** [IsHypervisor] (part_003, lines 44-51). *)
Definition IsHypervisor : M bool :=
  let* (cid, err) := ContextID_ in
  match err with
  | Some _ => ret false
  | None => ret (cid =? Host)%N
  end.

(** *** Predicates used in the statements *)

(** The connection's descriptor has been put in non-blocking mode: its
    file exists in the store and carries the name [newConn] gave it. *)
Definition conn_file (w : World) (c : Conn) (file : File) : Prop :=
  exists h, cfd_f (conn_fd c) = Some h /\ files w !! h = Some file
            /\ name file = fileName (local c).

(** Same for a listener's descriptor. *)
Definition listen_file (w : World) (self : sysListenFD) (file : File) : Prop :=
  exists h, lfd_f self = Some h /\ files w !! h = Some file.




(** The error the classifier looks at once a path error has been
    unwrapped is one of the two stream-end conditions. *)
Definition stream_end (err : error) : bool :=
  is_EOF err || isErrno err enotconn.

(** The cause of an envelope. *)
Definition cause_of (e : error) : option error :=
  match e with
  | OpError _ _ _ _ cause => Some cause
  | _ => None
  end.

(** The [k] accept attempts starting at log position [t] all report a
    transient condition and each wait for readiness after them succeeds. *)
Definition transient_run (fd flags : Z) (t k : nat) : Prop :=
  forall i, (i < k)%nat ->
    (exists e, K _ (t + 2 * i)%nat (sys_accept4 fd flags) = Fail e
               /\ (e = unix.EAGAIN \/ e = unix.ECONNABORTED))
    /\ K _ (t + 2 * i + 1)%nat (poll_waitRead fd) = None.

(** The values [unix.Accept4] hands back for an answer of the kernel. *)
Definition accept_values (r : sysres (Z * unix.Sockaddr))
  : Z * option unix.Sockaddr * option error :=
  match r with
  | Ok (nfd, sa) => (nfd, Some sa, None)
  | Fail e => (-1, None, Some (Errno e))
  end.

(** Number of accept requests in a log. *)
Definition accept_count (l : list call) : nat := length (List.filter is_accept4 l).

(** [m] returns a value from every world: it neither panics nor waits
    forever. *)
Definition returns {A} (m : M A) : Prop :=
  forall w, exists a w', m w = (Done a, w').







(** *** Accept with a timeout (part_003, lines 8-39) *)

(** The loop of [Accept].  The listener is any [net.Listener]: [l_Accept]
    is its [Accept] method, and [temporary err] stands for the test
    [err.(net.Error)] followed by [Temporary()], which belongs to the
    error's type and not to the package.  Time is not part of the model:
    the sleep between two attempts changes nothing.  For a non-zero
    [timeout] the source arms a timer that closes the listener from
    another goroutine; the loop sees the timer only through what
    [l_Accept] returns, and stopping it leaves the world as it is.  What
    the timer itself does to the world is outside the model, so only the
    statements about the returned values cover a non-zero [timeout]. *)
Fixpoint Accept (temporary : error -> bool)
    (l_Accept : M (option Conn * option error)) (timeout : Z) (fuel : nat)
  : M (option Conn * option error) :=
  match fuel with
  | O => diverge
  | S fuel' =>
      let* (c, err) := l_Accept in
      match err with
      | Some e =>
          if temporary e then Accept temporary l_Accept timeout fuel'
          else ret (None, err)
      | None => ret (c, None)
      end
  end.

(** The world after [n] calls of [m] that all returned. *)
Fixpoint after_calls {A} (m : M A) (n : nat) (w : World) : World :=
  match n with
  | O => w
  | S n' => after_calls m n' (snd (m w))
  end.

(** *** More predicates used in the statements *)

(** Number of close requests in a log, for whatever descriptor. *)
Definition is_any_close (c : call) : bool :=
  match c with
  | Call (sys_close _) => true
  | _ => false
  end.
Definition close_count (l : list call) : nat := length (List.filter is_any_close l).

(** The second case of the classifier's switch: the error stands for an
    operation on a closed descriptor. *)
Definition closed_like (err : error) : bool :=
  is_ErrClosed err || isErrno err ebadf || Contains (Error err) "use of closed".

(** The envelope of an operation of the pair class, and of the local
    class, on a connection. *)
Definition pair_envelope (tag : string) (c : Conn) (cause : error) : error :=
  OpError tag "vsock" (Some (local c)) (Some (remote c)) cause.
Definition local_envelope (tag : string) (a : Addr) (cause : error) : error :=
  OpError tag "vsock" None (Some a) cause.

(** Is the character a decimal digit? *)
Definition is_digit (c : Ascii.ascii) : bool :=
  match c with
  | "0" | "1" | "2" | "3" | "4" | "5" | "6" | "7" | "8" | "9" => true
  | _ => false
  end%char.

(** Does the character occur in the string? *)
Fixpoint occurs (c : Ascii.ascii) (s : string) : bool :=
  match s with
  | EmptyString => false
  | String c' s' => Ascii.eqb c c' || occurs c s'
  end.

(** Is every character of the string a decimal digit? *)
Fixpoint all_digits (s : string) : bool :=
  match s with
  | EmptyString => true
  | String c s' => is_digit c && all_digits s'
  end.

(** *** The errors the package hands to the classifier *)

Definition is_PathError (e : error) : bool :=
  match e with PathError _ _ _ => true | _ => false end.

(** The names the package gives to its files: "vsock-listen"
    ([listenLinux]) and the network name followed by the local address
    ([newConn]). *)
Definition package_file (name : string) : Prop :=
  name = "vsock-listen" \/ exists a, name = fileName a.

(** [opError] is not exported, so the errors it classifies are those of
    the package's own calls: an errno of a [unix] call or a sentinel of
    [os], [io] or the poller (no path error); the path error of
    [os.Open] on the device; and the path error in which [os.File] wraps
    the error of a close, read or write on a file of the package. *)
Inductive passed : error -> Prop :=
| passed_bare e : is_PathError e = false -> passed e
| passed_device e : passed (PathError "open" devVsock (Errno e))
| passed_file op name inner :
    In op ["close"; "read"; "write"] -> package_file name ->
    is_PathError inner = false -> passed (PathError op name inner).

(** ** Properties of the classifier *)

Lemma fileName_not_device (a : Addr) : string_eqb (fileName a) devVsock = false.
Proof.
  reflexivity.
Qed.

Lemma opError_nil op l r : opError op None l r = None.
Proof. reflexivity. Qed.

(** The classifier answers with the bare stream-end signal exactly when
    the unwrapped error is [io.EOF] or [ENOTCONN]. *)
Lemma opError_stream_end op err l r :
  stream_end (unwrapPathError err) = true ->
  opError op (Some err) l r = Some EOF.
Proof.
  unfold opError, opError, stream_end. intros ->. reflexivity.
Qed.

Lemma opError_envelope op err l r :
  stream_end (unwrapPathError err) = false ->
  exists cause,
    opError op (Some err) l r =
      Some (OpError (errOp_String op) "vsock"
              (match op with
               | opClose | opDial | opRawRead | opRawWrite | opRead | opWrite => l
               | _ => None
               end)
              (match op with
               | opClose | opDial | opRawRead | opRawWrite | opRead | opWrite => r
               | _ => l
               end) cause)
    /\ cause =
         (if is_ErrClosed (unwrapPathError err) || isErrno (unwrapPathError err) ebadf
             || Contains (Error (unwrapPathError err)) "use of closed"
          then closedCause else unwrapPathError err).
Proof.
  unfold opError, opError, stream_end. intros ->.
  eexists. split; [|reflexivity]. destruct op; reflexivity.
Qed.


Lemma opError_some op err l r : exists e, opError op (Some err) l r = Some e.
Proof.
  destruct (stream_end (unwrapPathError err)) eqn:Hs.
  - exists EOF. by apply opError_stream_end.
  - destruct (opError_envelope op err l r Hs) as (cause & Heq & _). eauto.
Qed.


(** ** Running the model *)

Lemma bind_Done {A B} (m : M A) (k : A -> M B) w a w' :
  m w = (Done a, w') -> bind m k w = k a w'.
Proof. unfold bind. intros ->. reflexivity. Qed.

Lemma bind_Panic {A B} (m : M A) (k : A -> M B) w msg w' :
  m w = (Panic msg, w') -> bind m k w = (Panic msg, w').
Proof. unfold bind. intros ->. reflexivity. Qed.

Lemma bind_Diverge {A B} (m : M A) (k : A -> M B) w w' :
  m w = (Diverge, w') -> bind m k w = (Diverge, w').
Proof. unfold bind. intros ->. reflexivity. Qed.

Lemma returns_ret {A} (a : A) : returns (ret a).
Proof. intros w. by exists a, w. Qed.

Lemma returns_sys {X} (c : syscall X) : returns (sys c).
Proof. intros w. unfold sys. eauto. Qed.

Lemma returns_bind {A B} (m : M A) (k : A -> M B) :
  returns m -> (forall a, returns (k a)) -> returns (bind m k).
Proof.
  intros Hm Hk w. destruct (Hm w) as (a & w1 & H1).
  rewrite (bind_Done _ _ _ _ _ H1). apply Hk.
Qed.

Lemma returns_getFile f : returns (getFile f).
Proof. intros w. unfold getFile. eauto. Qed.

Lemma returns_allocFile fd nm : returns (allocFile fd nm).
Proof. intros w. unfold allocFile. eauto. Qed.

Lemma returns_markClosed h file : returns (markClosed h file).
Proof. intros w. unfold markClosed. eauto. Qed.

Ltac returns_step :=
  first
    [ apply returns_ret | apply returns_sys | apply returns_getFile
    | apply returns_allocFile | apply returns_markClosed
    | apply returns_bind; [| intros ? ]
    | match goal with
      | |- returns (match ?x with _ => _ end) => destruct x
      | |- returns (if ?x then _ else _) => destruct x
      | |- returns (let (_, _) := ?x in _) => destruct x
      end ].

Lemma returns_os_File_Close f : returns (os_File_Close f).
Proof. unfold os_File_Close. repeat returns_step. Qed.

(** ** Context-ID discovery *)

Lemma returns_contextID : returns contextID.
Proof.
  unfold contextID, os_Open, os_File_Fd, unix_IoctlGetUint32.
  repeat first [apply returns_os_File_Close | returns_step].
Qed.

(** C9: [IsHypervisor] returns a boolean for every outcome of the
    device query; it is true if and only if discovery succeeded and the
    discovered context ID is 2 ([Host]); a discovery failure yields
    false, and there is no error result to propagate. *)
Theorem C9_IsHypervisor_iff_host w :
  exists cid err b w',
    ContextID_ w = (Done (cid, err), w')
    /\ IsHypervisor w = (Done b, w')
    /\ (b = true <-> err = None /\ cid = 2%N)
    /\ (err <> None -> b = false).
Proof.
  destruct (returns_contextID w) as ([cid err] & w' & H).
  unfold IsHypervisor, ContextID_. rewrite (bind_Done _ _ _ _ _ H).
  destruct err as [e|]; simpl.
  - exists cid, (Some e), false, w'. repeat split; try done.
    intros [? _]. discriminate.
  - exists cid, None, (cid =? Host)%N, w'. repeat split; try done.
    + match goal with Hb : (_ =? _)%N = true |- _ => by apply N.eqb_eq in Hb end.
    + intros [_ ->]. reflexivity.
Qed.

(** ** Half-close *)

(** The errors [shutdown] can report come from the file or from the
    kernel; none of them is built by the package. *)
Lemma shutdown_error_kinds self how w err w' :
  sysConnFD_shutdown self how w = (Done (Some err), w') ->
  err = ErrInvalid \/ err = ErrFileClosing \/ exists e, err = Errno e.
Proof.
  unfold sysConnFD_shutdown, os_File_SyscallConn, os_rawConn_Control,
    unix_Shutdown, getFile, bind, ret, sys, to_error. simpl.
  destruct (cfd_f self) as [h|]; simpl.
  - destruct (files w !! h) as [file|] eqn:Hf; simpl.
    + rewrite Hf. destruct (closed file); simpl.
      * intros [= <- _]. right. by left.
      * destruct (K _ _ (sys_shutdown _ _)); simpl; intros [= <- _].
        right. right. by eexists.
    + intros [= <- _]. by left.
  - intros [= <- _]. by left.
Qed.

(** C10: the directions [CloseRead] and [CloseWrite] pass to
    [Shutdown] are 0 and 1, the platform's [SHUT_RD] and [SHUT_WR]; both
    are accepted by the switch of [Shutdown], so both calls run
    [shutdown] and never produce the invalid-direction error. *)
Theorem C10_half_close_direction_accepted (self : Conn) :
  shutRd = unix.SHUT_RD /\ shutWr = unix.SHUT_WR
  /\ Shutdown_accepts shutRd = true /\ Shutdown_accepts shutWr = true
  /\ sysConnFD_Shutdown (conn_fd self) shutRd = sysConnFD_shutdown (conn_fd self) shutRd
  /\ sysConnFD_Shutdown (conn_fd self) shutWr = sysConnFD_shutdown (conn_fd self) shutWr
  /\ Conn_CloseRead self =
       (let* err := sysConnFD_shutdown (conn_fd self) shutRd in
        ret (Conn_opError self opClose err))
  /\ Conn_CloseWrite self =
       (let* err := sysConnFD_shutdown (conn_fd self) shutWr in
        ret (Conn_opError self opClose err))
  /\ (forall how w err w', how = shutRd \/ how = shutWr ->
        sysConnFD_Shutdown (conn_fd self) how w = (Done (Some err), w') ->
        err <> invalidHow how).
Proof.
  repeat split; try reflexivity.
  intros how w err w' Hhow H Herr.
  assert (Hs : sysConnFD_Shutdown (conn_fd self) how = sysConnFD_shutdown (conn_fd self) how)
    by (destruct Hhow as [-> | ->]; reflexivity).
  rewrite Hs in H. apply shutdown_error_kinds in H.
  unfold invalidHow in Herr. destruct H as [-> | [-> | [e ->]]]; discriminate.
Qed.

(** ** Reading *)

Lemma getFile_conn w c file :
  conn_file w c file ->
  exists h, cfd_f (conn_fd c) = Some h
            /\ getFile (cfd_f (conn_fd c)) w = (Done (Some (h, file)), w).
Proof.
  intros (h & Hf & Hl & _). exists h. split; [done|].
  unfold getFile. by rewrite Hf, Hl.
Qed.

Lemma conn_file_name w c file :
  conn_file w c file -> string_eqb (name file) devVsock = false.
Proof. intros (h & _ & _ & ->). apply fileName_not_device. Qed.

(** What the file layer hands to [Conn.Read] for an error of the
    readiness-integrated read. *)
Lemma unwrap_wrapErr op file e :
  string_eqb (name file) devVsock = false ->
  e <> EOF ->
  unwrapPathError (wrapErr op file e)
  = match e with ErrFileClosing => ErrClosed | _ => e end.
Proof.
  intros Hn He. destruct e; simpl; rewrite ?Hn; try reflexivity.
Qed.

(** C5: when the underlying read reports end of stream or [ENOTCONN],
    [Conn.Read] returns 0 bytes and the bare [io.EOF]; every other read
    failure comes back as an envelope tagged "read" that carries both
    addresses; a successful read is passed through. *)
Theorem C5_read_end_of_stream (self : Conn) (len : Z) (w : World) (file : File) :
  conn_file w self file ->
  exists n err w',
    Conn_Read self len w = (Done (n, err), w')
    /\ (closed file = false ->
        (forall e, K _ (length (log w)) (poll_read (sysfd file) len) = inr e ->
           (e = EOF \/ e = Errno unix.ENOTCONN -> n = 0 /\ err = Some EOF)
           /\ (e <> EOF -> e <> Errno unix.ENOTCONN ->
               n = 0 /\ exists cause,
                 err = Some (OpError "read" "vsock" (Some (local self))
                               (Some (remote self)) cause)))
        /\ (forall k, K _ (length (log w)) (poll_read (sysfd file) len) = inl k ->
              n = k /\ err = None))
    /\ (closed file = true ->
        n = 0 /\ err = Some (OpError "read" "vsock" (Some (local self))
                               (Some (remote self)) closedCause)).
Proof.
  intros Hc.
  destruct (getFile_conn _ _ _ Hc) as (h & Hh & Hg).
  pose proof (conn_file_name _ _ _ Hc) as Hn.
  unfold Conn_Read, sysConnFD_Read, os_File_Read.
  unfold bind. rewrite Hg. destruct (closed file) eqn:Hopen.
  { unfold ret, Conn_opError, opError, opError. simpl. rewrite Hn. simpl.
    eexists _, _, _. split; [reflexivity|]. split; [done|]. by intros _. }
  unfold sys, ret.
  destruct (K _ (length (log w)) (poll_read (sysfd file) len)) as [k|e] eqn:HK;
    cbv beta iota.
  - eexists _, _, _. split; [reflexivity|]. split; [|done]. intros _.
    split; [intros ? [=]|]. intros ? [= <-]. done.
  - destruct (stream_end (unwrapPathError (wrapErr "read" file e))) eqn:Hs.
    + unfold Conn_opError. rewrite (opError_stream_end _ _ _ _ Hs).
      eexists _, _, _. split; [reflexivity|]. split; [|done]. intros _.
      split; [|intros ? [=]].
      intros ? [= <-]. split; [done|]. intros He1 He2. exfalso.
      rewrite unwrap_wrapErr in Hs by done.
      destruct e; try discriminate; try done.
      unfold stream_end, isErrno in Hs. simpl in Hs.
      apply Z.eqb_eq in Hs. by subst.
    + unfold Conn_opError.
      destruct (opError_envelope opRead _ (Some (local self)) (Some (remote self)) Hs)
        as (cause & -> & _).
      eexists _, _, _. split; [reflexivity|]. split; [|done]. intros _.
      split; [|intros ? [=]].
      intros ? [= <-]. split; [|intros _ _; split; [done|by exists cause]].
      intros [-> | ->]; exfalso; simpl in Hs; rewrite ?Hn in Hs; discriminate.
Qed.

(** ** Closing *)

(** A close on a file that was closed before reports the canonical
    closed-connection cause and leaves the world as it is. *)
Lemma Conn_Close_closed (self : Conn) (w : World) (file : File) :
  conn_file w self file -> closed file = true ->
  Conn_Close self w =
    (Done (Some (OpError "close" "vsock" (Some (local self)) (Some (remote self))
                   closedCause)), w).
Proof.
  intros Hc Hcl.
  destruct (getFile_conn _ _ _ Hc) as (h & Hh & Hg).
  pose proof (conn_file_name _ _ _ Hc) as Hn.
  unfold Conn_Close, sysConnFD_Close, os_File_Close, bind.
  rewrite Hg, Hcl. unfold ret, Conn_opError, opError, opError. simpl.
  rewrite Hn. reflexivity.
Qed.

(** The first close marks the file closed and keeps its name. *)
Lemma Conn_Close_open (self : Conn) (w : World) (file : File) :
  conn_file w self file -> closed file = false ->
  exists e w1,
    Conn_Close self w = (Done e, w1)
    /\ conn_file w1 self (mkFile (sysfd file) (name file) true)
    /\ log w1 = (log w ++ [Call (sys_close (sysfd file))])%list.
Proof.
  intros Hc Hcl.
  destruct (getFile_conn _ _ _ Hc) as (h & Hh & Hg).
  unfold Conn_Close, sysConnFD_Close, os_File_Close, bind.
  rewrite Hg, Hcl. unfold markClosed, sys, ret. simpl.
  eexists _, _. split; [reflexivity|]. split; [|reflexivity].
  destruct Hc as (h' & Hh' & Hl & Hname). exists h'. simpl.
  split; [done|]. split; [|done].
  assert (h' = h) as -> by congruence.
  apply list_lookup_insert_eq. by eapply lookup_lt_Some.
Qed.

Lemma opError_closed_cause op err l r :
  unwrapPathError err = ErrClosed \/ unwrapPathError err = Errno unix.EBADF
    \/ (Contains (Error (unwrapPathError err)) "use of closed" = true
        /\ unwrapPathError err <> Errno unix.ENOTCONN) ->
  exists e, opError op (Some err) l r = Some e /\ cause_of e = Some closedCause.
Proof.
  intros Hu.
  assert (Hs : stream_end (unwrapPathError err) = false).
  { destruct Hu as [-> | [-> | [Ht Hn]]]; try reflexivity.
    unfold stream_end, isErrno. simpl.
    destruct (unwrapPathError err) as [e| | | | | | | |]; try reflexivity.
    - destruct (e =? unix.ENOTCONN) eqn:He; [|reflexivity].
      apply Z.eqb_eq in He. by subst.
    - discriminate Ht. }
  destruct (opError_envelope op err l r Hs) as (cause & -> & Hc).
  eexists. split; [reflexivity|]. simpl. f_equal. rewrite Hc.
  destruct Hu as [-> | [-> | [-> _]]]; try reflexivity.
  by rewrite orb_true_r.
Qed.

(** ** The envelope of every public operation *)










(** ** Listening *)

Ltac destruct_K :=
  match goal with
  | |- context [match K ?X ?n ?c with _ => _ end] =>
      let E := fresh "EK" in destruct (K X n c) eqn:E
  end.

(** The requests of a successful [listenLinux], in order. *)
Lemma listenLinux_success lfd cid port w l err w' :
  listenLinux lfd cid port w = (Done (Some l, err), w') ->
  let fd := lfd_fd lfd in
  let port' := if (port =? 0)%N then unix.VMADDR_PORT_ANY else port in
  exists lcid lport,
    err = None
    /\ log w' = (log w ++ [Call (sys_bind fd (unix.SockaddrVM cid port'));
                           Call (sys_listen fd SOMAXCONN);
                           Call (sys_getsockname fd);
                           Call (sys_setNonblock fd true)])%list
    /\ K _ (length (log w) + 2)%nat (sys_getsockname fd)
       = Ok (unix.SockaddrVM lcid lport)
    /\ VsockListener_Addr l = mkAddr lcid lport
    /\ lfd_fd (listener_fd (vl_listener l)) = fd.
Proof.
  unfold listenLinux, listenLinux_body, sysListenFD_Bind, sysListenFD_Listen,
    sysListenFD_Getsockname, sysListenFD_SetNonblocking, sysListenFD_setNonblocking,
    sysListenFD_EarlyClose, unix_Bind, unix_Listen, unix_Getsockname,
    unix_SetNonblock, unix_Close, os_NewFile, allocFile, assertSockaddrVM,
    bind, sys, ret, panic, to_error.
  cbn [log files].
  repeat (destruct_K; cbn [log files]); try (intros [=]; fail).
  destruct (lfd_fd lfd <? 0); cbn [log files];
    (destruct a as [lcid lport|]; [|intros [=]]);
    intros [= <- <- <-]; exists lcid, lport; cbn [log files];
    (split; [reflexivity|]); (split; [by rewrite <- !app_assoc|]);
    (split; [|done]);
    rewrite <- EK1; f_equal; rewrite !length_app; simpl; lia.
Qed.

Lemma socket_returns : returns socket.
Proof.
  unfold socket, unix_Socket, unix_CloseOnExec.
  repeat first [returns_step | destruct (_ =? _)].
Qed.

(** C8: a successful [listen] binds the descriptor to the given
    context ID and to the given port, with port 0 replaced by the
    wildcard [VMADDR_PORT_ANY]; it then listens with backlog [SOMAXCONN],
    reads the bound address back and switches to non-blocking mode, in
    this order and with nothing in between.  The address of the returned
    listener is the one [getsockname] reported, so its port is the one
    the kernel resolved, whatever port was asked for. *)
Theorem C8_listen_reports_bound_address cid port w l err w' :
  listen cid port w = (Done (Some l, err), w') ->
  let port' := if (port =? 0)%N then unix.VMADDR_PORT_ANY else port in
  exists fd w0 lcid lport,
    socket w = (Done (fd, None), w0)
    /\ err = None
    /\ log w' = (log w0 ++ [Call (sys_bind fd (unix.SockaddrVM cid port'));
                            Call (sys_listen fd SOMAXCONN);
                            Call (sys_getsockname fd);
                            Call (sys_setNonblock fd true)])%list
    /\ K _ (length (log w0) + 2)%nat (sys_getsockname fd)
       = Ok (unix.SockaddrVM lcid lport)
    /\ VsockListener_Addr l = mkAddr lcid lport
    /\ lfd_fd (listener_fd (vl_listener l)) = fd.
Proof.
  unfold listen, newListenFD. intros H.
  destruct (socket_returns w) as ([fd serr] & w0 & Hs).
  unfold bind in H. rewrite Hs in H.
  destruct serr as [e|]; [discriminate H|]. unfold ret in H.
  apply listenLinux_success in H. cbv zeta in H.
  destruct H as (lcid & lport & H). simpl in H.
  exists fd, w0, lcid, lport. split; [done|]. exact H.
Qed.

(** When every step succeeds and the kernel reports a VM-socket
    address, [listenLinux] does return a listener. *)
Lemma listenLinux_returns lfd cid port w lcid lport :
  let fd := lfd_fd lfd in
  let port' := if (port =? 0)%N then unix.VMADDR_PORT_ANY else port in
  K _ (length (log w)) (sys_bind fd (unix.SockaddrVM cid port')) = None ->
  K _ (length (log w) + 1)%nat (sys_listen fd SOMAXCONN) = None ->
  K _ (length (log w) + 2)%nat (sys_getsockname fd) = Ok (unix.SockaddrVM lcid lport) ->
  K _ (length (log w) + 3)%nat (sys_setNonblock fd true) = None ->
  exists l w', listenLinux lfd cid port w = (Done (Some l, None), w')
               /\ VsockListener_Addr l = mkAddr lcid lport.
Proof.
  intros fd port' H0 H1 H2 H3.
  unfold listenLinux, listenLinux_body, sysListenFD_Bind, sysListenFD_Listen,
    sysListenFD_Getsockname, sysListenFD_SetNonblocking, sysListenFD_setNonblocking,
    sysListenFD_EarlyClose, unix_Bind, unix_Listen, unix_Getsockname,
    unix_SetNonblock, unix_Close, os_NewFile, allocFile, assertSockaddrVM,
    bind, sys, ret, panic, to_error.
  subst fd port'. cbn [log files]. rewrite H0. cbn [log files].
  rewrite length_app. cbn [length]. rewrite H1. cbn [log files].
  rewrite !length_app. cbn [length].
  replace (length (log w) + 1 + 1)%nat with (length (log w) + 2)%nat by lia.
  rewrite H2. cbn [log files]. rewrite !length_app. cbn [length].
  replace (length (log w) + 1 + 1 + 1)%nat with (length (log w) + 3)%nat by lia.
  rewrite H3. cbn [log files].
  destruct (lfd_fd lfd <? 0); cbn; eauto.
Qed.

(** ** Setup failures and the raw descriptor *)

(** [dialLinux] releases the raw descriptor on every error it returns:
    the release is the last request before the return. *)
Lemma dialLinux_releases cfd cid port w c e w' :
  dialLinux cfd cid port w = (Done (c, Some e), w') ->
  c = None
  /\ exists pre, log w' = (log w ++ pre ++ [Call (sys_close (cfd_fd cfd))])%list.
Proof.
  unfold dialLinux, dialLinux_body, newConn, sysConnFD_Connect,
    sysConnFD_Getsockname, sysConnFD_SetNonblocking, sysConnFD_setNonblocking,
    sysConnFD_EarlyClose, unix_Connect, unix_Getsockname,
    unix_SetNonblock, unix_Close, os_NewFile, allocFile, assertSockaddrVM,
    bind, sys, ret, panic, to_error.
  cbn [log files].
  repeat (destruct_K; cbn [log files]).
  - intros [= <- <- <-]. split; [done|]. cbn [log].
    eexists [_]. by rewrite <- !app_assoc.
  - match goal with a : unix.Sockaddr |- _ => destruct a end; [|intros [=]].
    cbn [log files].
    repeat (destruct_K; cbn [log files]).
    + intros [= <- <- <-]. split; [done|]. cbn [log].
      eexists [_; _; _]. by rewrite <- !app_assoc.
    + destruct (cfd_fd cfd <? 0); cbn [log files]; intros [=].
  - intros [= <- <- <-]. split; [done|]. cbn [log].
    eexists [_; _]. by rewrite <- !app_assoc.
Qed.

(** The four error returns of [listenLinux] and the requests each one
    has issued: only a failure of [getsockname] is followed by the
    release of the descriptor. *)
Lemma listenLinux_error_paths lfd cid port w l e w' :
  listenLinux lfd cid port w = (Done (l, Some e), w') ->
  let fd := lfd_fd lfd in
  let port' := if (port =? 0)%N then unix.VMADDR_PORT_ANY else port in
  let c_bind := Call (sys_bind fd (unix.SockaddrVM cid port')) in
  let c_listen := Call (sys_listen fd SOMAXCONN) in
  let c_name := Call (sys_getsockname fd) in
  let c_nonblock := Call (sys_setNonblock fd true) in
  let c_close := Call (sys_close fd) in
  l = None
  /\ (log w' = (log w ++ [c_bind])%list
      \/ log w' = (log w ++ [c_bind; c_listen])%list
      \/ log w' = (log w ++ [c_bind; c_listen; c_name; c_close])%list
      \/ log w' = (log w ++ [c_bind; c_listen; c_name; c_nonblock])%list).
Proof.
  unfold listenLinux, listenLinux_body, sysListenFD_Bind, sysListenFD_Listen,
    sysListenFD_Getsockname, sysListenFD_SetNonblocking, sysListenFD_setNonblocking,
    sysListenFD_EarlyClose, unix_Bind, unix_Listen, unix_Getsockname,
    unix_SetNonblock, unix_Close, os_NewFile, allocFile, assertSockaddrVM,
    bind, sys, ret, panic, to_error.
  cbn [log files].
  repeat (destruct_K; cbn [log files]);
    try (intros [= <- <- <-]; split; [done|]; cbn [log];
         rewrite <- ?app_assoc; simpl; auto 12).
  destruct (lfd_fd lfd <? 0); cbn [log files];
    match goal with a : unix.Sockaddr |- _ => destruct a end; intros [=].
Qed.

(** A failing [bind] makes [listenLinux] return the error after that one
    request: the descriptor is not released. *)
Lemma listenLinux_bind_failure lfd cid port w e :
  let fd := lfd_fd lfd in
  let port' := if (port =? 0)%N then unix.VMADDR_PORT_ANY else port in
  K _ (length (log w)) (sys_bind fd (unix.SockaddrVM cid port')) = Some e ->
  listenLinux lfd cid port w
  = (Done (None, Some (Errno e)),
     mkWorld (log w ++ [Call (sys_bind fd (unix.SockaddrVM cid port'))]) (files w)).
Proof.
  intros fd port' H.
  unfold listenLinux, listenLinux_body, sysListenFD_Bind, unix_Bind,
    bind, sys, ret, to_error.
  subst fd port'. cbn [log files]. rewrite H. reflexivity.
Qed.

(** ** The accept loop *)

Lemma accept4_callback_run flags fd l w :
  let r := K _ (length (log w)) (sys_accept4 fd flags) in
  accept4_callback flags fd l w
  = (Done (negb (transient (snd (accept_values r))), accept_values r),
     mkWorld (log w ++ [Call (sys_accept4 fd flags)]) (files w)).
Proof.
  unfold accept4_callback, unix_Accept4, bind, sys, ret. cbn [log files].
  destruct (K _ _ (sys_accept4 fd flags)) as [[nfd sa]|e]; reflexivity.
Qed.

(** An attempt that does not report a transient condition ends the loop. *)
Lemma rawLoop_accept_done fuel flags fd l w :
  let r := K _ (length (log w)) (sys_accept4 fd flags) in
  transient (snd (accept_values r)) = false ->
  rawLoop (S fuel) poll_waitRead (accept4_callback flags) fd l w
  = (Done (None, accept_values r),
     mkWorld (log w ++ [Call (sys_accept4 fd flags)]) (files w)).
Proof.
  intros r Hr. cbn [rawLoop]. unfold bind.
  rewrite accept4_callback_run. fold r. rewrite Hr. reflexivity.
Qed.

(** A transient condition followed by a successful wait for readiness
    leads to another attempt. *)
Lemma rawLoop_accept_retry fuel flags fd l w e :
  K _ (length (log w)) (sys_accept4 fd flags) = Fail e ->
  e = unix.EAGAIN \/ e = unix.ECONNABORTED ->
  K _ (length (log w) + 1)%nat (poll_waitRead fd) = None ->
  rawLoop (S fuel) poll_waitRead (accept4_callback flags) fd l w
  = rawLoop fuel poll_waitRead (accept4_callback flags) fd
      (-1, None, Some (Errno e))
      (mkWorld (log w ++ [Call (sys_accept4 fd flags); Call (poll_waitRead fd)])
         (files w)).
Proof.
  intros Hr He Hw. cbn [rawLoop]. unfold bind at 1.
  rewrite accept4_callback_run. rewrite Hr. cbn [accept_values snd transient].
  assert (Ht : (e =? unix.EAGAIN) || (e =? unix.ECONNABORTED) = true)
    by (destruct He as [-> | ->]; reflexivity).
  rewrite Ht. cbn [negb]. unfold bind, sys. cbn [log files].
  rewrite length_app. cbn [length]. rewrite Hw.
  by rewrite <- app_assoc.
Qed.

Lemma accept_count_app l1 l2 :
  accept_count (l1 ++ l2) = (accept_count l1 + accept_count l2)%nat.
Proof. unfold accept_count. by rewrite List.filter_app, length_app. Qed.

(** After [k] transient attempts the loop, given more than [k] units of
    fuel, returns what the next attempt reports; it has then issued
    [k + 1] accept requests. *)
Lemma rawLoop_accept_run k : forall fuel flags fd l w,
  transient_run fd flags (length (log w)) k ->
  transient (snd (accept_values
    (K _ (length (log w) + 2 * k)%nat (sys_accept4 fd flags)))) = false ->
  (k < fuel)%nat ->
  exists w',
    rawLoop fuel poll_waitRead (accept4_callback flags) fd l w
    = (Done (None, accept_values
               (K _ (length (log w) + 2 * k)%nat (sys_accept4 fd flags))), w')
    /\ accept_count (log w') = (accept_count (log w) + k + 1)%nat
    /\ files w' = files w.
Proof.
  induction k as [|k IH]; intros fuel flags fd l w Hrun Hlast Hfuel.
  - destruct fuel as [|fuel]; [lia|].
    rewrite Nat.mul_0_r, Nat.add_0_r in *.
    rewrite (rawLoop_accept_done fuel flags fd l w Hlast).
    eexists. split; [reflexivity|]. cbn [log files].
    rewrite accept_count_app. split; [|done]. cbn. lia.
  - destruct fuel as [|fuel]; [lia|].
    destruct (Hrun 0%nat ltac:(lia)) as ((e & He & Hcase) & Hwait).
    rewrite Nat.mul_0_r, Nat.add_0_r in He, Hwait.
    rewrite (rawLoop_accept_retry fuel flags fd l w e He Hcase Hwait).
    set (w1 := mkWorld _ _).
    assert (Hlen : length (log w1) = (length (log w) + 2)%nat)
      by (subst w1; cbn [log]; rewrite length_app; reflexivity).
    destruct (IH fuel flags fd (-1, None, Some (Errno e)) w1) as (w' & Hr & Hc & Hf).
    + intros i Hi. rewrite Hlen.
      replace (length (log w) + 2 + 2 * i)%nat
        with (length (log w) + 2 * S i)%nat by lia.
      apply Hrun. lia.
    + rewrite Hlen.
      replace (length (log w) + 2 + 2 * k)%nat
        with (length (log w) + 2 * S k)%nat by lia.
      exact Hlast.
    + lia.
    + exists w'. rewrite Hr, Hlen.
      replace (length (log w) + 2 + 2 * k)%nat
        with (length (log w) + 2 * S k)%nat by lia.
      split; [reflexivity|]. split; [|by rewrite Hf].
      rewrite Hc. subst w1. cbn [log]. rewrite accept_count_app. cbn. lia.
Qed.

(** Whatever the loop did, [accept4] returns a nil error, unless the
    listener has no file at all. *)
Lemma accept4_error fuel self flags w nfd sa err w' :
  sysListenFD_accept4 fuel self flags w = (Done (nfd, sa, err), w') ->
  err = None \/ err = Some ErrInvalid.
Proof.
  unfold sysListenFD_accept4, os_File_SyscallConn, bind, ret.
  destruct (getFile (lfd_f self) w) as [[[[h file]|]| |] w1]; try discriminate.
  - destruct (os_rawConn_Read _ _ _ _ w1) as [[[e [[a b] c]]| |] w2];
      try discriminate.
    intros [= _ _ <- _]. by left.
  - intros [= _ _ <- _]. by right.
Qed.

Lemma getFile_listen w self file :
  listen_file w self file ->
  exists h, getFile (lfd_f self) w = (Done (Some (h, file)), w).
Proof.
  intros (h & Hf & Hl). exists h. unfold getFile. by rewrite Hf, Hl.
Qed.

(** [accept4] on a listener in non-blocking mode: after [k] transient
    attempts it returns the descriptor and the address of the next
    attempt, with a nil error whatever that attempt reported. *)
Lemma accept4_run fuel self flags w file k :
  listen_file w self file ->
  closed file = false ->
  K _ (length (log w)) (poll_prepareRead (sysfd file)) = None ->
  transient_run (sysfd file) flags (length (log w) + 1) k ->
  transient (snd (accept_values
    (K _ (length (log w) + 1 + 2 * k)%nat (sys_accept4 (sysfd file) flags)))) = false ->
  (k < fuel)%nat ->
  exists w',
    sysListenFD_accept4 fuel self flags w
    = (Done (fst (accept_values
               (K _ (length (log w) + 1 + 2 * k)%nat
                  (sys_accept4 (sysfd file) flags))), None), w')
    /\ accept_count (log w') = (accept_count (log w) + k + 1)%nat
    /\ files w' = files w.
Proof.
  intros Hl Hopen Hprep Hrun Hlast Hfuel.
  destruct (getFile_listen _ _ _ Hl) as (h & Hg).
  unfold sysListenFD_accept4, os_File_SyscallConn, os_rawConn_Read.
  unfold bind at 1 2. rewrite Hg. unfold ret at 1.
  unfold bind at 1 2. unfold getFile at 1.
  destruct Hl as (h' & Hf & Hlk).
  assert (files w !! h = Some file) as -> .
  { unfold getFile in Hg. rewrite Hf, Hlk in Hg. congruence. }
  rewrite Hopen. unfold bind at 1. unfold sys at 1. rewrite Hprep.
  set (w1 := mkWorld _ _).
  assert (Hlen : length (log w1) = (length (log w) + 1)%nat)
    by (subst w1; cbn [log]; by rewrite length_app).
  destruct (rawLoop_accept_run k fuel flags (sysfd file) (0, None, None) w1)
    as (w' & Hr & Hc & Hfiles); rewrite ?Hlen; try done.
  rewrite Hr. rewrite Hlen.
  destruct (accept_values _) as [[nfd sa] err]. unfold ret. cbn [fst].
  exists w'. split; [reflexivity|]. split; [|by rewrite Hfiles].
  rewrite Hc. subst w1. cbn [log]. rewrite accept_count_app. cbn. lia.
Qed.

(** An error returned by [VsockListener.Accept] never comes from the
    accept request: it is the classification of a missing file or of a
    failure to switch the accepted descriptor to non-blocking mode. *)
Lemma Accept_error_origin fuel self w c e w' :
  VsockListener_Accept fuel self w = (Done (c, Some e), w') ->
  exists err0,
    opError opAccept (Some err0) (Some (VsockListener_Addr self)) None = Some e
    /\ (err0 = ErrInvalid
        \/ exists nfd t errno,
             K _ t (sys_setNonblock nfd true) = Some errno /\ err0 = Errno errno).
Proof.
  unfold VsockListener_Accept, listener_Accept, sysListenFD_Accept4.
  unfold bind at 1 2 3.
  destruct (sysListenFD_accept4 _ _ _ w) as [[[[nfd sa] err]| |] w1] eqn:H4;
    try discriminate.
  destruct (accept4_error _ _ _ _ _ _ _ _ H4) as [-> | ->].
  - unfold ret at 1. unfold bind at 1, assertSockaddrVM.
    destruct sa as [[cid port|]|]; try discriminate.
    unfold ret at 1, newConn, sysConnFD_SetNonblocking, sysConnFD_setNonblocking,
      unix_SetNonblock, os_NewFile, allocFile, bind, sys, ret,
      VsockListener_opError, to_error.
    cbn [log files cfd_fd].
    destruct (K _ _ (sys_setNonblock nfd true)) as [errno|] eqn:EK.
    + set (x := opError _ _ _ _). intros [= _ He _].
      exists (Errno errno). split; [exact He|]. right. eauto.
    + destruct (nfd <? 0); discriminate.
  - unfold ret, VsockListener_opError. set (x := opError _ _ _ _).
    intros [= _ He _]. exists ErrInvalid. split; [by rewrite <- He|]. by left.
Qed.

(** C6: an accept attempt that reports [EAGAIN] or [ECONNABORTED]
    is not propagated.  The callback asks for a retry, the loop waits for
    readiness and attempts again; after any number [k] of such attempts
    [accept4] returns what attempt [k + 1] reports, having issued
    [k + 1] accept requests.  Neither [accept4] nor [Accept] ever returns
    one of the two conditions as the error of the accept request. *)
Theorem C6_transient_accept_is_retried :
  (forall fuel flags fd l w e,
      K _ (length (log w)) (sys_accept4 fd flags) = Fail e ->
      e = unix.EAGAIN \/ e = unix.ECONNABORTED ->
      K _ (length (log w) + 1)%nat (poll_waitRead fd) = None ->
      rawLoop (S fuel) poll_waitRead (accept4_callback flags) fd l w
      = rawLoop fuel poll_waitRead (accept4_callback flags) fd
          (-1, None, Some (Errno e))
          (mkWorld (log w ++ [Call (sys_accept4 fd flags); Call (poll_waitRead fd)])
             (files w)))
  /\ (forall fuel self flags w file k,
        listen_file w self file ->
        closed file = false ->
        K _ (length (log w)) (poll_prepareRead (sysfd file)) = None ->
        transient_run (sysfd file) flags (length (log w) + 1) k ->
        transient (snd (accept_values
          (K _ (length (log w) + 1 + 2 * k)%nat
             (sys_accept4 (sysfd file) flags)))) = false ->
        (k < fuel)%nat ->
        exists w',
          sysListenFD_accept4 fuel self flags w
          = (Done (fst (accept_values
                     (K _ (length (log w) + 1 + 2 * k)%nat
                        (sys_accept4 (sysfd file) flags))), None), w')
          /\ accept_count (log w') = (accept_count (log w) + k + 1)%nat)
  /\ (forall fuel self flags w nfd sa err w',
        sysListenFD_accept4 fuel self flags w = (Done (nfd, sa, err), w') ->
        err <> Some (Errno unix.EAGAIN) /\ err <> Some (Errno unix.ECONNABORTED))
  /\ (forall fuel self w c e w',
        VsockListener_Accept fuel self w = (Done (c, Some e), w') ->
        exists err0,
          opError opAccept (Some err0) (Some (VsockListener_Addr self)) None = Some e
          /\ (err0 = ErrInvalid
              \/ exists nfd t errno,
                   K _ t (sys_setNonblock nfd true) = Some errno
                   /\ err0 = Errno errno)).
Proof.
  split; [|split; [|split]].
  - apply rawLoop_accept_retry.
  - intros fuel self flags w file k Hl Ho Hp Hr Hlast Hf.
    destruct (accept4_run fuel self flags w file k Hl Ho Hp Hr Hlast Hf)
      as (w' & H & Hc & _).
    eauto.
  - intros fuel self flags w nfd sa err w' H.
    destruct (accept4_error _ _ _ _ _ _ _ _ H) as [-> | ->]; split; discriminate.
  - apply Accept_error_origin.
Qed.

(** An accept request that fails for good is not reported: [Accept4]
    returns descriptor -1, a nil address and a nil error, and [Accept]
    then panics in its type assertion on the address. *)
Lemma Accept_on_accept_failure fuel self w file e :
  listen_file w (listener_fd (vl_listener self)) file ->
  closed file = false ->
  K _ (length (log w)) (poll_prepareRead (sysfd file)) = None ->
  K _ (length (log w) + 1)%nat (sys_accept4 (sysfd file) unix.SOCK_CLOEXEC) = Fail e ->
  e <> unix.EAGAIN -> e <> unix.ECONNABORTED ->
  (0 < fuel)%nat ->
  exists w',
    sysListenFD_Accept4 fuel (listener_fd (vl_listener self)) unix.SOCK_CLOEXEC w
    = (Done (Some (mkConnFD (-1) None), None, None), w')
    /\ VsockListener_Accept fuel self w
       = (Panic "interface conversion: unix.Sockaddr is nil, not *unix.SockaddrVM", w').
Proof.
  intros Hl Ho Hp Ha He1 He2 Hf.
  destruct (accept4_run fuel (listener_fd (vl_listener self)) unix.SOCK_CLOEXEC
              w file 0) as (w' & H & _); try done.
  - intros i Hi. lia.
  - rewrite Nat.mul_0_r, Nat.add_0_r, Ha. cbn.
    apply orb_false_iff. split; by apply Z.eqb_neq.
  - rewrite Nat.mul_0_r, Nat.add_0_r, Ha in H. cbn [accept_values fst] in H.
    exists w'. unfold VsockListener_Accept, listener_Accept, sysListenFD_Accept4.
    unfold bind. rewrite H. split; reflexivity.
Qed.

(** The same happens when the listener is closed before [Accept]: the
    callback never runs and the results keep their zero values. *)
Lemma Accept_on_closed_listener fuel self w file :
  listen_file w (listener_fd (vl_listener self)) file ->
  closed file = true ->
  VsockListener_Accept fuel self w
  = (Panic "interface conversion: unix.Sockaddr is nil, not *unix.SockaddrVM", w).
Proof.
  intros Hl Hc. destruct (getFile_listen _ _ _ Hl) as (h & Hg).
  unfold VsockListener_Accept, listener_Accept, sysListenFD_Accept4,
    sysListenFD_accept4, os_File_SyscallConn, os_rawConn_Read.
  unfold bind. rewrite Hg. unfold ret. unfold getFile.
  destruct Hl as (h' & Hf & Hlk).
  assert (files w !! h = Some file) as ->.
  { unfold getFile in Hg. rewrite Hf, Hlk in Hg. congruence. }
  rewrite Hc. reflexivity.
Qed.

(** ** The invariants are established by the constructors *)

(** A connection built by [newConn] on a valid descriptor has its file. *)
Lemma newConn_conn_file cfd l r w c w' :
  0 <= cfd_fd cfd ->
  newConn cfd l r w = (Done (Some c, None), w') ->
  local c = l /\ remote c = r
  /\ conn_file w' c (mkFile (cfd_fd cfd) (fileName l) false).
Proof.
  intros Hfd.
  unfold newConn, sysConnFD_SetNonblocking, sysConnFD_setNonblocking,
    unix_SetNonblock, os_NewFile, allocFile, bind, sys, ret, to_error.
  cbn [log files].
  destruct (K _ _ (sys_setNonblock _ _)); [intros [=]|].
  destruct (cfd_fd cfd <? 0) eqn:Hneg; [apply Z.ltb_lt in Hneg; lia|].
  cbn [log files]. intros [= <- <-]. cbn [local remote].
  split; [done|]. split; [done|].
  exists (length (files w)). cbn [conn_fd cfd_f files local].
  split; [done|]. split; [|done].
  by apply list_lookup_middle.
Qed.

(** A listener returned by [listenLinux] on a valid descriptor has its
    file, open. *)
Lemma listenLinux_listen_file lfd cid port w l err w' :
  0 <= lfd_fd lfd ->
  listenLinux lfd cid port w = (Done (Some l, err), w') ->
  listen_file w' (listener_fd (vl_listener l))
    (mkFile (lfd_fd lfd) "vsock-listen" false).
Proof.
  intros Hfd.
  unfold listenLinux, listenLinux_body, sysListenFD_Bind, sysListenFD_Listen,
    sysListenFD_Getsockname, sysListenFD_SetNonblocking, sysListenFD_setNonblocking,
    sysListenFD_EarlyClose, unix_Bind, unix_Listen, unix_Getsockname,
    unix_SetNonblock, unix_Close, os_NewFile, allocFile, assertSockaddrVM,
    bind, sys, ret, panic, to_error.
  cbn [log files].
  repeat (destruct_K; cbn [log files]); try (intros [=]; fail).
  destruct (lfd_fd lfd <? 0) eqn:Hneg; [apply Z.ltb_lt in Hneg; lia|].
  cbn [log files].
  match goal with a : unix.Sockaddr |- _ => destruct a end; [|intros [=]].
  intros [= <- <- <-]. exists (length (files w)).
  cbn [vl_listener listener_fd lfd_f files].
  split; [done|]. by apply list_lookup_middle.
Qed.


(** ** Further properties of the classifier *)

(** X1: the classifier returns nil exactly for a nil error: it never
    turns a success into a failure and never swallows a failure. *)
Theorem X1_opError_nil_iff op err l r :
  opError op err l r = None <-> err = None.
Proof.
  destruct err as [e|]; split; try done.
  destruct (opError_some op e l r) as [x Hx]. rewrite Hx. discriminate.
Qed.

(** X2: unless the error left after the path-error switch is a
    stream-end or a closed-descriptor condition, it is the cause of the
    envelope, unchanged. *)
Theorem X2_opError_keeps_cause op err l r :
  stream_end (unwrapPathError err) = false ->
  closed_like (unwrapPathError err) = false ->
  exists src dst,
    opError op (Some err) l r
    = Some (OpError (errOp_String op) "vsock" src dst (unwrapPathError err)).
Proof.
  intros Hs Hc. destruct (opError_envelope op err l r Hs) as (cause & -> & ->).
  unfold closed_like in Hc. rewrite Hc. eauto.
Qed.

(** X3: the eleven tags are pairwise distinct: the tag of an envelope
    identifies the operation. *)
Theorem X3_errOp_String_injective op1 op2 :
  errOp_String op1 = errOp_String op2 <-> op1 = op2.
Proof.
  split; [|by intros ->].
  destruct op1, op2; simpl; intros H; try reflexivity; discriminate H.
Qed.

(** X4: an error of a file operation on a file of the package, named
    after a local address or "vsock-listen", is classified exactly like
    the error it wraps. *)
Theorem X4_file_errors_classified_by_cause tag op name inner l r :
  name = "vsock-listen" \/ (exists a, name = fileName a) ->
  unwrapPathError inner = inner ->
  opError tag (Some (PathError op name inner)) l r = opError tag (Some inner) l r.
Proof.
  intros Hname Hinner.
  assert (Hn : string_eqb name devVsock = false).
  { destruct Hname as [-> | [a ->]]; [reflexivity | apply fileName_not_device]. }
  unfold opError. cbn [unwrapPathError]. rewrite Hn, Hinner. reflexivity.
Qed.

(** ** Rendering addresses *)

Lemma to_uint_nonnil (n : N) : N.to_uint n <> Decimal.Nil.
Proof.
  destruct n as [|p]; [discriminate|]. apply DecimalPos.Unsigned.to_uint_nonnil.
Qed.

Lemma fmt_d_injective (a b : N) : fmt_d a = fmt_d b -> a = b.
Proof.
  unfold fmt_d. intros H. apply DecimalN.Unsigned.to_uint_inj.
  pose proof (NilZero.usu _ (to_uint_nonnil a)) as Ha.
  pose proof (NilZero.usu _ (to_uint_nonnil b)) as Hb.
  rewrite H in Ha. congruence.
Qed.

Lemma string_of_uint_digits d : all_digits (NilEmpty.string_of_uint d) = true.
Proof. induction d; simpl; auto. Qed.

Lemma fmt_d_digits (n : N) : all_digits (fmt_d n) = true.
Proof.
  unfold fmt_d, NilZero.string_of_uint.
  destruct (N.to_uint n) eqn:E; try reflexivity;
    rewrite <- E; apply string_of_uint_digits.
Qed.

(** Two renderings that start with digits and continue with the same
    character, not a digit, agree on the digits and on the rest. *)
Lemma digits_split s1 : forall s2 c t1 t2,
  all_digits s1 = true -> all_digits s2 = true -> is_digit c = false ->
  s1 ++ String c t1 = s2 ++ String c t2 -> s1 = s2 /\ t1 = t2.
Proof.
  induction s1 as [|a s1 IH]; intros [|b s2] c t1 t2 H1 H2 Hc;
    rewrite ?string_app_cons, ?string_app_nil.
  - intros [= ->]. done.
  - intros [= <- _]. simpl in H2. rewrite Hc in H2. discriminate.
  - intros [= -> _]. simpl in H1. rewrite Hc in H1. discriminate.
  - intros [= -> H]. simpl in H1, H2.
    apply andb_true_iff in H1 as [_ H1]. apply andb_true_iff in H2 as [_ H2].
    destruct (IH s2 c t1 t2 H1 H2 Hc H) as [-> ->]. done.
Qed.

Lemma string_app_cons c (s1 s2 : string) : String c s1 ++ s2 = String c (s1 ++ s2).
Proof. reflexivity. Qed.

Lemma string_app_nil (s : string) : "" ++ s = s.
Proof. reflexivity. Qed.

Lemma string_app_assoc (s1 s2 s3 : string) : (s1 ++ s2) ++ s3 = s1 ++ (s2 ++ s3).
Proof.
  induction s1 as [|c s1 IH]; [reflexivity|].
  rewrite !string_app_cons. f_equal. apply IH.
Qed.

(** X5: the rendering of an address, [Addr.String], determines the
    address: two addresses with the same text have the same context ID
    and the same port.  The same holds for the file name built from it. *)
Theorem X5_Addr_String_injective (a b : Addr) :
  (Addr_String a = Addr_String b -> a = b)
  /\ (fileName a = fileName b -> a = b).
Proof.
  assert (Hstr : Addr_String a = Addr_String b -> a = b).
  { destruct a as [c1 p1], b as [c2 p2]. unfold Addr_String. cbn [ContextID Port].
    unfold Hypervisor, cidReserved, Host.
    assert (Hrest : (fmt_d c1 ++ ")") ++ String ":" (fmt_d p1)
                    = (fmt_d c2 ++ ")") ++ String ":" (fmt_d p2) ->
                    mkAddr c1 p1 = mkAddr c2 p2).
    { rewrite !string_app_assoc, !string_app_cons, !string_app_nil. intros H.
      destruct (digits_split _ _ ")"%char _ _ (fmt_d_digits c1) (fmt_d_digits c2)
                  eq_refl H) as [Hc Hp].
      injection Hp as Hp. f_equal; by apply fmt_d_injective. }
    destruct (N.eqb_spec c1 0), (N.eqb_spec c2 0);
      destruct (N.eqb_spec c1 1), (N.eqb_spec c2 1);
      destruct (N.eqb_spec c1 2), (N.eqb_spec c2 2); subst; try lia;
      rewrite ?string_app_cons, ?string_app_nil; intros H;
      try discriminate H; apply Hrest; congruence. }
  split; [exact Hstr|].
  unfold fileName, Addr_Network, network.
  rewrite ?string_app_cons, ?string_app_nil. intros H. apply Hstr. congruence.
Qed.

(** ** Creating descriptors *)

(** X6: a descriptor returned by [socket] has close-on-exec requested
    for it: either by the flag of the one request that created it, or,
    when the kernel refused that flag with [EINVAL], by a request of its
    own right after the second attempt.  No other request is issued. *)
Theorem X6_socket_close_on_exec w fd w' :
  socket w = (Done (fd, None), w') ->
  let atomic :=
    sys_socket unix.AF_VSOCK (Z.lor unix.SOCK_STREAM unix.SOCK_CLOEXEC) 0 in
  let plain := sys_socket unix.AF_VSOCK unix.SOCK_STREAM 0 in
  (K _ (length (log w)) atomic = Ok fd
   /\ log w' = (log w ++ [Call atomic])%list)
  \/ (K _ (length (log w)) atomic = Fail unix.EINVAL
      /\ K _ (length (log w) + 1)%nat plain = Ok fd
      /\ log w' = (log w ++ [Call atomic; Call plain; Call (sys_closeOnExec fd)])%list).
Proof.
  unfold socket, unix_Socket, unix_CloseOnExec, bind, sys, ret. cbn [log files].
  destruct (K _ _ (sys_socket _ (Z.lor _ _) 0)) as [fd1|e1] eqn:E1.
  - intros [= <- <-]. left. done.
  - destruct (e1 =? unix.EINVAL) eqn:He; [|intros [=]].
    apply Z.eqb_eq in He. subst e1. cbn [log files].
    rewrite length_app. cbn [length].
    destruct (K _ _ (sys_socket _ unix.SOCK_STREAM 0)) as [fd2|e2] eqn:E2;
      [|intros [=]].
    cbn [log files]. intros [= <- <-]. right.
    split; [done|]. split; [done|]. cbn [log]. by rewrite <- !app_assoc.
Qed.

(** X7: context-ID discovery never leaves the device open.  When
    opening /dev/vsock fails, the ID is 0 and the error is the path error
    of that open, and nothing else was requested; otherwise the requests
    are the open, the ioctl on the new descriptor and its close, whatever
    the ioctl reported. *)
Theorem X7_contextID_closes_device w cid err w' :
  contextID w = (Done (cid, err), w') ->
  (exists e,
      K _ (length (log w)) (sys_open devVsock) = Fail e
      /\ cid = 0%N /\ err = Some (PathError "open" devVsock (Errno e))
      /\ log w' = (log w ++ [Call (sys_open devVsock)])%list)
  \/ (exists fd,
        K _ (length (log w)) (sys_open devVsock) = Ok fd
        /\ log w' = (log w ++ [Call (sys_open devVsock);
                               Call (sys_ioctlGetUint32 fd
                                       unix.IOCTL_VM_SOCKETS_GET_LOCAL_CID);
                               Call (sys_close fd)])%list
        /\ match K _ (length (log w) + 1)%nat
                   (sys_ioctlGetUint32 fd unix.IOCTL_VM_SOCKETS_GET_LOCAL_CID) with
           | Ok v => cid = v /\ err = None
           | Fail e => cid = 0%N /\ err = Some (Errno e)
           end).
Proof.
  unfold contextID, os_Open, os_File_Fd, os_File_Close, unix_IoctlGetUint32,
    getFile, allocFile, markClosed, bind, sys, ret. cbn [log files].
  destruct (K _ _ (sys_open devVsock)) as [fd|e] eqn:E1; cbn [log files].
  - rewrite list_lookup_middle by done. cbn [sysfd closed name log files].
    rewrite length_app. cbn [length].
    intros [= Hr <-]. right. exists fd. split; [done|]. cbn [log].
    split; [by rewrite <- !app_assoc|].
    destruct (K _ _ (sys_ioctlGetUint32 _ _)); by simplify_eq.
  - intros [= <- <- <-]. left. exists e. done.
Qed.

(** ** Dialling *)

(** The requests of a successful [dialLinux], in order, and the
    connection it builds. *)
Lemma dialLinux_success cfd cid port w c err w' :
  dialLinux cfd cid port w = (Done (Some c, err), w') ->
  let fd := cfd_fd cfd in
  exists lcid lport,
    err = None
    /\ log w' = (log w ++ [Call (sys_connect fd (unix.SockaddrVM cid port));
                           Call (sys_getsockname fd);
                           Call (sys_setNonblock fd true)])%list
    /\ K _ (length (log w) + 1)%nat (sys_getsockname fd)
       = Ok (unix.SockaddrVM lcid lport)
    /\ local c = mkAddr lcid lport
    /\ remote c = mkAddr cid port
    /\ cfd_fd (conn_fd c) = fd
    /\ (0 <= fd ->
        conn_file w' c (mkFile fd (fileName (mkAddr lcid lport)) false)).
Proof.
  unfold dialLinux, dialLinux_body, newConn, sysConnFD_Connect,
    sysConnFD_Getsockname, sysConnFD_SetNonblocking, sysConnFD_setNonblocking,
    sysConnFD_EarlyClose, unix_Connect, unix_Getsockname,
    unix_SetNonblock, unix_Close, os_NewFile, allocFile, assertSockaddrVM,
    bind, sys, ret, panic, to_error.
  cbn [log files].
  destruct (K _ _ (sys_connect _ _)) eqn:E1; [intros [=]|]. cbn [log files].
  destruct (K _ _ (sys_getsockname _)) as [[lcid lport|]|] eqn:E2;
    try (intros [=]; fail). cbn [log files].
  destruct (K _ _ (sys_setNonblock _ _)) eqn:E3; [intros [=]|]. cbn [log files].
  rewrite length_app in E2. cbn [length] in E2.
  destruct (cfd_fd cfd <? 0) eqn:Hneg; cbn [log files];
    intros [= <- <- <-]; exists lcid, lport; cbn [local remote conn_fd cfd_fd log];
    (split; [done|]); (split; [by rewrite <- !app_assoc|]);
    (split; [done|]); (split; [done|]); (split; [done|]); (split; [done|]).
  - intros Hfd. apply Z.ltb_lt in Hneg. lia.
  - intros _. exists (length (files w)). cbn [conn_fd cfd_f files local].
    split; [done|]. split; [|done]. by apply list_lookup_middle.
Qed.

(** X8: a failing [dial] returns no connection and leaves no descriptor
    behind: either no descriptor was created, or the last request before
    the return is the close of the one [socket] returned. *)
Theorem X8_dial_error_releases cid port w c e w' :
  dial cid port w = (Done (c, Some e), w') ->
  c = None
  /\ ((exists fd, socket w = (Done (fd, Some e), w'))
      \/ (exists fd w0 pre,
            socket w = (Done (fd, None), w0)
            /\ log w' = (log w0 ++ pre ++ [Call (sys_close fd)])%list)).
Proof.
  unfold dial, newConnFD. intros H.
  destruct (socket_returns w) as ([fd serr] & w0 & Hs).
  unfold bind in H. rewrite Hs in H. destruct serr as [e0|]; unfold ret in H.
  - injection H as <- <- <-. split; [done|]. left. by exists fd.
  - apply dialLinux_releases in H as [-> [pre Hlog]]. split; [done|].
    right. exists fd, w0, pre. done.
Qed.

(** X9: a successful [dial] issues, after the creation of the
    descriptor, exactly connect to the given context ID and port,
    getsockname and set-nonblocking.  The connection's remote address is
    the one dialled, its local address the one the kernel reported, and
    its file is open and named after the local address. *)
Theorem X9_dial_success cid port w c err w' :
  dial cid port w = (Done (Some c, err), w') ->
  exists fd w0 lcid lport,
    socket w = (Done (fd, None), w0)
    /\ err = None
    /\ log w' = (log w0 ++ [Call (sys_connect fd (unix.SockaddrVM cid port));
                            Call (sys_getsockname fd);
                            Call (sys_setNonblock fd true)])%list
    /\ K _ (length (log w0) + 1)%nat (sys_getsockname fd)
       = Ok (unix.SockaddrVM lcid lport)
    /\ local c = mkAddr lcid lport
    /\ remote c = mkAddr cid port
    /\ cfd_fd (conn_fd c) = fd
    /\ (0 <= fd ->
        conn_file w' c (mkFile fd (fileName (mkAddr lcid lport)) false)).
Proof.
  unfold dial, newConnFD. intros H.
  destruct (socket_returns w) as ([fd serr] & w0 & Hs).
  unfold bind in H. rewrite Hs in H.
  destruct serr as [e|]; [discriminate H|]. unfold ret in H.
  apply dialLinux_success in H. cbv zeta in H.
  destruct H as (lcid & lport & H). cbn [cfd_fd] in H.
  exists fd, w0, lcid, lport. split; [done|]. exact H.
Qed.

(** ** Listening without a device *)

(** The phrase the classifier searches for starts with the letter u: a
    prefix without that letter cannot hold the start of a match. *)
Lemma Contains_skip_prefix (pre s : string) :
  occurs "u"%char pre = false ->
  Contains (pre ++ s) "use of closed" = Contains s "use of closed".
Proof.
  induction pre as [|c pre IH]; [reflexivity|].
  cbn [occurs]. intros H. apply orb_false_iff in H as [Hc Hpre].
  rewrite string_app_cons. cbn [Contains String.prefix].
  destruct (Ascii.ascii_dec "u" c) as [Heq|_];
    [subst c; rewrite Ascii.eqb_refl in Hc; discriminate Hc|].
  cbn [orb]. by apply IH.
Qed.

(** X10: when /dev/vsock cannot be opened, [Listen] creates no socket:
    the open is its only request.  It returns an envelope tagged "listen"
    without any address; the cause is the path error of the open, kept
    whole (a path error on the device is not unwrapped, so even [ENOTCONN]
    does not become [io.EOF]), unless the message of the errno itself
    contains "use of closed". *)
Theorem X10_Listen_without_device port w e :
  K _ (length (log w)) (sys_open devVsock) = Fail e ->
  Listen port w
  = (Done (None,
           Some (OpError "listen" "vsock" None None
                   (if Contains (errnoText e) "use of closed" then closedCause
                    else PathError "open" devVsock (Errno e)))),
     mkWorld (log w ++ [Call (sys_open devVsock)]) (files w)).
Proof.
  intros HK.
  unfold Listen, ContextID_, contextID, os_Open, bind, sys, ret. rewrite HK.
  cbn [log files]. unfold opError. cbn [unwrapPathError].
  replace (string_eqb devVsock devVsock) with true by reflexivity.
  cbn [is_EOF isErrno is_ErrClosed orb Error].
  replace ("open" ++ " " ++ devVsock ++ ": " ++ errnoText e)
    with ("open /dev/vsock: " ++ errnoText e) by reflexivity.
  rewrite Contains_skip_prefix by reflexivity. reflexivity.
Qed.

(** X11: when discovery succeeds and [listen] fails, the envelope of
    [Listen] carries as its address the discovered context ID with the
    port as the caller gave it, also when that port is 0. *)
Theorem X11_Listen_failure_address port w cid w0 l e w' :
  ContextID_ w = (Done (cid, None), w0) ->
  Listen port w = (Done (l, Some e), w') ->
  l = None
  /\ (e = EOF
      \/ exists cause,
           e = OpError "listen" "vsock" None (Some (mkAddr cid port)) cause).
Proof.
  intros Hc. unfold Listen, bind. rewrite Hc.
  destruct (listen cid port w0) as [[[l0 [err0|]]| |] w1]; try discriminate.
  unfold ret. destruct (stream_end (unwrapPathError err0)) eqn:Hs.
  - rewrite (opError_stream_end _ _ _ _ Hs). intros [= <- <- <-]. split; [done|]. by left.
  - destruct (opError_envelope opListen err0 (Some (mkAddr cid port)) None Hs)
      as (cause & -> & _).
    intros [= <- <- <-]. split; [done|]. right. by exists cause.
Qed.

(** ** Operations on a closed connection *)

(** X12: once a connection's file is closed, every operation on the
    connection fails with an envelope whose cause is the canonical "use of
    closed network connection" error, sends no request to the kernel and
    changes nothing.  [SyscallConn] still hands out a raw connection, whose
    three operations fail the same way without running the callback. *)
Theorem X12_use_after_close (c : Conn) (w : World) (file : File) :
  conn_file w c file -> closed file = true ->
  (forall len, Conn_Read c len w
               = (Done (0, Some (pair_envelope "read" c closedCause)), w))
  /\ (forall len, Conn_Write c len w
                  = (Done (0, Some (pair_envelope "write" c closedCause)), w))
  /\ Conn_CloseRead c w = (Done (Some (pair_envelope "close" c closedCause)), w)
  /\ Conn_CloseWrite c w = (Done (Some (pair_envelope "close" c closedCause)), w)
  /\ (forall t, Conn_SetDeadline c t w
                = (Done (Some (local_envelope "set" (local c) closedCause)), w))
  /\ (forall t, Conn_SetReadDeadline c t w
                = (Done (Some (local_envelope "set" (local c) closedCause)), w))
  /\ (forall t, Conn_SetWriteDeadline c t w
                = (Done (Some (local_envelope "set" (local c) closedCause)), w))
  /\ exists raw,
       Conn_SyscallConn c w = (Done (Some raw, None), w)
       /\ (forall L (fn : Z -> L -> M L) s,
              rawConn_Control raw fn s w
              = (Done (Some (local_envelope "raw-control" (local c) closedCause), s), w))
       /\ (forall L fuel (fn : Z -> L -> M (bool * L)) s,
              rawConn_Read fuel raw fn s w
              = (Done (Some (pair_envelope "raw-read" c closedCause), s), w))
       /\ (forall L fuel (fn : Z -> L -> M (bool * L)) s,
              rawConn_Write fuel raw fn s w
              = (Done (Some (pair_envelope "raw-write" c closedCause), s), w)).
Proof.
  intros Hc Hcl.
  destruct (getFile_conn _ _ _ Hc) as (h & Hh & Hg).
  pose proof (conn_file_name _ _ _ Hc) as Hn.
  assert (Hg' : getFile (Some h) w = (Done (Some (h, file)), w))
    by (by rewrite <- Hh).
  repeat split; try intros; try exists (mkRawConn (Some h) (local c) (remote c));
    repeat split; try intros;
    unfold Conn_Read, Conn_Write, Conn_CloseRead, Conn_CloseWrite,
      Conn_SetDeadline, Conn_SetReadDeadline, Conn_SetWriteDeadline,
      Conn_SyscallConn, rawConn_Control, rawConn_Read, rawConn_Write,
      sysConnFD_Read, sysConnFD_Write, sysConnFD_Shutdown, sysConnFD_shutdown,
      sysConnFD_SetDeadline, sysConnFD_setDeadline, sysConnFD_SyscallConn,
      sysConnFD_syscallConn, os_File_Read, os_File_Write, os_File_SetDeadline,
      os_File_SyscallConn, os_rawConn_Control, os_rawConn_Read, os_rawConn_Write,
      bind, ret;
    cbn [rc rc_local rc_remote];
    try change (Shutdown_accepts shutRd) with true;
    try change (Shutdown_accepts shutWr) with true;
    try change (deadline =? deadline) with true;
    try change (readDeadline =? deadline) with false;
    try change (readDeadline =? readDeadline) with true;
    try change (writeDeadline =? deadline) with false;
    try change (writeDeadline =? readDeadline) with false;
    try change (writeDeadline =? writeDeadline) with true;
    cbv beta iota;
    repeat (progress (rewrite ?Hh, ?Hg', ?Hcl; cbv beta iota));
    unfold Conn_opError, rawConn_opError, opError, pair_envelope, local_envelope;
    cbn [unwrapPathError rc_local rc_remote]; rewrite ?Hn; reflexivity.
Qed.

(** ** Releasing a connection *)

Lemma after_calls_closed (c : Conn) n : forall w file,
  conn_file w c file -> closed file = true ->
  after_calls (Conn_Close c) n w = w.
Proof.
  induction n as [|n IH]; intros w file Hc Hcl; [reflexivity|].
  cbn [after_calls]. rewrite (Conn_Close_closed c w file Hc Hcl). cbn [snd].
  by apply (IH w file).
Qed.

(** X13: however often [Close] is called on an open connection, as
    long as it is called once, the kernel sees exactly one close request,
    for the connection's descriptor.  The first call returns nil when that
    request succeeds and classifies its errno otherwise. *)
Theorem X13_close_releases_once (c : Conn) (w : World) (file : File) :
  conn_file w c file -> closed file = false ->
  (forall n, log (after_calls (Conn_Close c) (S n) w)
             = (log w ++ [Call (sys_close (sysfd file))])%list)
  /\ exists w1,
       Conn_Close c w
       = (Done (match K _ (length (log w)) (sys_close (sysfd file)) with
                | None => None
                | Some e => opError opClose (Some (Errno e))
                              (Some (local c)) (Some (remote c))
                end), w1).
Proof.
  intros Hc Hcl.
  destruct (Conn_Close_open c w file Hc Hcl) as (e1 & w1 & H1 & Hc1 & Hlog).
  split.
  - intros n. cbn [after_calls]. rewrite H1. cbn [snd].
    rewrite (after_calls_closed c n w1 _ Hc1 eq_refl). exact Hlog.
  - destruct (getFile_conn _ _ _ Hc) as (h & Hh & Hg).
    pose proof (conn_file_name _ _ _ Hc) as Hn.
    unfold Conn_Close, sysConnFD_Close, os_File_Close, bind.
    rewrite Hg, Hcl. unfold markClosed, sys, ret. cbn [log files].
    eexists. f_equal. f_equal.
    destruct (K _ _ (sys_close (sysfd file))) as [e|]; [|reflexivity].
    unfold Conn_opError, opError. cbn [unwrapPathError]. rewrite Hn. reflexivity.
Qed.

(** ** Half-close, on an open connection *)

(** X14: on an open connection [CloseRead] sends the kernel exactly one
    request, a shutdown of the connection's descriptor in direction
    [SHUT_RD], and [CloseWrite] exactly one in direction [SHUT_WR]; the
    file stays open, and the result is the classification of what the
    kernel answered. *)
Theorem X14_half_close_requests (c : Conn) (w : World) (file : File) :
  conn_file w c file -> closed file = false ->
  let answer how := K _ (length (log w)) (sys_shutdown (sysfd file) how) in
  Conn_CloseRead c w
  = (Done (Conn_opError c opClose (to_error (answer unix.SHUT_RD))),
     mkWorld (log w ++ [Call (sys_shutdown (sysfd file) unix.SHUT_RD)]) (files w))
  /\ Conn_CloseWrite c w
     = (Done (Conn_opError c opClose (to_error (answer unix.SHUT_WR))),
        mkWorld (log w ++ [Call (sys_shutdown (sysfd file) unix.SHUT_WR)]) (files w)).
Proof.
  intros Hc Hcl.
  destruct (getFile_conn _ _ _ Hc) as (h & Hh & Hg).
  assert (Hg' : getFile (Some h) w = (Done (Some (h, file)), w))
    by (by rewrite <- Hh).
  split;
    unfold Conn_CloseRead, Conn_CloseWrite, sysConnFD_Shutdown, sysConnFD_shutdown,
      os_File_SyscallConn, os_rawConn_Control, unix_Shutdown, bind, ret;
    [change (Shutdown_accepts shutRd) with true
    |change (Shutdown_accepts shutWr) with true];
    cbv beta iota; rewrite Hg; cbv beta iota; rewrite Hg'; cbv beta iota;
    rewrite Hcl; unfold sys; cbn [log files];
    destruct (K _ _ (sys_shutdown _ _)); reflexivity.
Qed.

(** ** Accepting a connection *)

(** What the accept loop leaves in the named results is what the kernel
    answered to one of the accept requests the loop issued. *)
Lemma rawLoop_accept_values flags fd fuel : forall l w e l' w',
  rawLoop fuel poll_waitRead (accept4_callback flags) fd l w = (Done (e, l'), w') ->
  exists t pre,
    l' = accept_values (K _ t (sys_accept4 fd flags))
    /\ log w' = (log w ++ pre)%list
    /\ log w' !! t = Some (Call (sys_accept4 fd flags)).
Proof.
  induction fuel as [|fuel IH]; intros l w e l' w'; [discriminate|].
  cbn [rawLoop]. unfold bind at 1. rewrite accept4_callback_run.
  destruct (negb _).
  - unfold ret. intros [= <- <- <-]. exists (length (log w)), [Call (sys_accept4 fd flags)].
    cbn [log]. split; [done|]. split; [done|]. by apply list_lookup_middle.
  - unfold bind, sys. cbn [log files].
    destruct (K _ _ (poll_waitRead fd)) as [err|].
    + unfold ret. intros [= <- <- <-].
      exists (length (log w)), [Call (sys_accept4 fd flags); Call (poll_waitRead fd)].
      cbn [log]. rewrite <- app_assoc. split; [done|]. split; [done|].
      by apply list_lookup_middle.
    + intros H. destruct (IH _ _ _ _ _ H) as (t & pre & Hl & Hlog & Hat).
      cbn [log] in Hlog. rewrite <- !app_assoc in Hlog.
      exists t. eexists. split; [exact Hl|]. split; [exact Hlog|exact Hat].
Qed.

(** X15: a connection returned by [VsockListener.Accept] comes with a
    nil error; the listener then had an open file, the connection's local
    address is the listener's address, and its descriptor and remote
    address are the ones the kernel gave in answer to an accept request of
    this call, issued on the listener's descriptor with the close-on-exec
    flag.  The last request of the call put that descriptor in
    non-blocking mode, and the connection has its open file, named after
    the local address. *)
Theorem X15_Accept_connection fuel (self : VsockListener) w c err w' :
  VsockListener_Accept fuel self w = (Done (Some c, err), w') ->
  err = None
  /\ local c = VsockListener_Addr self
  /\ exists file t nfd cid port pre,
       listen_file w (listener_fd (vl_listener self)) file
       /\ closed file = false
       /\ log w' !! t = Some (Call (sys_accept4 (sysfd file) unix.SOCK_CLOEXEC))
       /\ K _ t (sys_accept4 (sysfd file) unix.SOCK_CLOEXEC)
          = Ok (nfd, unix.SockaddrVM cid port)
       /\ remote c = mkAddr cid port
       /\ cfd_fd (conn_fd c) = nfd
       /\ log w' = (log w ++ pre ++ [Call (sys_setNonblock nfd true)])%list
       /\ (0 <= nfd ->
           conn_file w' c (mkFile nfd (fileName (VsockListener_Addr self)) false)).
Proof.
  unfold VsockListener_Accept, listener_Accept, sysListenFD_Accept4,
    sysListenFD_accept4, os_File_SyscallConn, os_rawConn_Read.
  unfold bind at 1 2 3 4 5. unfold getFile at 1.
  destruct (lfd_f (listener_fd (vl_listener self))) as [h|] eqn:Hh;
    [|intros [=]].
  destruct (files w !! h) as [file|] eqn:Hf; [|intros [=]].
  unfold ret at 1. cbv beta iota. unfold bind at 1 2. unfold getFile at 1.
  rewrite Hf. destruct (closed file) eqn:Hcl; [intros [=]|].
  unfold bind at 1. unfold sys at 1.
  destruct (K _ _ (poll_prepareRead (sysfd file))) as [perr|]; [intros [=]|].
  set (w1 := mkWorld _ _).
  destruct (rawLoop fuel poll_waitRead (accept4_callback unix.SOCK_CLOEXEC)
              (sysfd file) (0, None, None) w1)
    as [[[e [[nfd sa] aerr]]| |] w2] eqn:Hloop; try (intros [=]; fail).
  destruct (rawLoop_accept_values _ _ _ _ _ _ _ _ Hloop) as (t & pre & Hval & Hlog & Hat).
  unfold ret at 1 2. cbv beta iota. unfold bind at 1, assertSockaddrVM.
  destruct sa as [[cid port|]|]; try (intros [=]; fail).
  unfold ret at 1. cbv beta iota.
  unfold newConn, sysConnFD_SetNonblocking, sysConnFD_setNonblocking,
    unix_SetNonblock, os_NewFile, allocFile, bind, sys, ret, to_error.
  cbn [log files cfd_fd].
  destruct (K _ _ (sys_setNonblock nfd true)); [intros [=]|].
  assert (HK : K _ t (sys_accept4 (sysfd file) unix.SOCK_CLOEXEC)
               = Ok (nfd, unix.SockaddrVM cid port)).
  { destruct (K _ t (sys_accept4 (sysfd file) unix.SOCK_CLOEXEC)) as [[a b]|a];
      cbn [accept_values] in Hval; congruence. }
  assert (Hlog' : forall fs, log (mkWorld (log w2 ++ [Call (sys_setNonblock nfd true)]) fs)
                  = (log w ++ (Call (poll_prepareRead (sysfd file)) :: pre)
                       ++ [Call (sys_setNonblock nfd true)])%list).
  { intros fs. cbn [log]. rewrite Hlog. subst w1. cbn [log].
    rewrite <- !app_assoc. reflexivity. }
  assert (Hat' : forall fs, log (mkWorld (log w2 ++ [Call (sys_setNonblock nfd true)]) fs)
                   !! t = Some (Call (sys_accept4 (sysfd file) unix.SOCK_CLOEXEC))).
  { intros fs. cbn [log]. apply lookup_app_l_Some. exact Hat. }
  destruct (nfd <? 0) eqn:Hneg; cbn [log files]; intros [= <- <- <-];
    (split; [done|]; split; [done|];
     exists file, t, nfd, cid, port, (Call (poll_prepareRead (sysfd file)) :: pre);
     split; [by exists h|]; split; [done|]; split; [apply Hat'|];
     split; [exact HK|]; split; [done|]; split; [done|]; split; [apply Hlog'|]).
  - intros Hpos. apply Z.ltb_lt in Hneg. lia.
  - intros _. exists (length (files w2)). cbn [conn_fd cfd_f files local].
    split; [done|]. split; [|done]. by apply list_lookup_middle.
Qed.

(** A request that is no close request leaves the count as it is. *)
Lemma close_count_other (c0 : call) (l0 : list call) :
  is_any_close c0 = false -> close_count (l0 ++ [c0]) = close_count l0.
Proof.
  intros Hc0. unfold close_count. rewrite List.filter_app, length_app.
  cbn [List.filter]. rewrite Hc0. cbn [length]. lia.
Qed.

(** The accept loop releases nothing. *)
Lemma rawLoop_accept_no_close flags fd fuel : forall l w,
  close_count (log (snd (rawLoop fuel poll_waitRead (accept4_callback flags) fd l w)))
  = close_count (log w).
Proof.
  induction fuel as [|fuel IH]; intros l w; [reflexivity|].
  cbn [rawLoop]. unfold bind at 1. rewrite accept4_callback_run.
  destruct (negb _).
  - unfold ret. cbn [snd log]. by apply close_count_other.
  - unfold bind, sys. cbn [log files].
    destruct (K _ _ (poll_waitRead fd)) as [err|].
    + unfold ret. cbn [snd log]. by rewrite !close_count_other.
    + rewrite IH. cbn [log]. by rewrite !close_count_other.
Qed.

(** X16: [VsockListener.Accept] never closes a descriptor, whatever way
    it ends: with a connection, with an error, in a panic or waiting.  In
    particular, when the accepted descriptor cannot be put in non-blocking
    mode, the error is returned and the descriptor stays open. *)
Theorem X16_Accept_releases_nothing fuel (self : VsockListener) (w : World) :
  close_count (log (snd (VsockListener_Accept fuel self w))) = close_count (log w).
Proof.
  unfold VsockListener_Accept, listener_Accept, sysListenFD_Accept4,
    sysListenFD_accept4, os_File_SyscallConn, os_rawConn_Read.
  unfold bind at 1 2 3 4 5. unfold getFile at 1.
  destruct (lfd_f (listener_fd (vl_listener self))) as [h|]; [|reflexivity].
  destruct (files w !! h) as [file|] eqn:Hf; [|reflexivity].
  unfold ret at 1. cbv beta iota. unfold bind at 1 2. unfold getFile at 1.
  rewrite Hf. destruct (closed file); [reflexivity|].
  unfold bind at 1. unfold sys at 1.
  destruct (K _ _ (poll_prepareRead (sysfd file))) as [perr|].
  { unfold ret. cbn [snd log]. by apply close_count_other. }
  set (w1 := mkWorld _ _).
  pose proof (rawLoop_accept_no_close unix.SOCK_CLOEXEC (sysfd file) fuel
                (0, None, None) w1) as Hloop.
  assert (Hw1 : close_count (log w1) = close_count (log w))
    by (subst w1; cbn [log]; by apply close_count_other).
  destruct (rawLoop fuel poll_waitRead (accept4_callback unix.SOCK_CLOEXEC)
              (sysfd file) (0, None, None) w1)
    as [[[e [[nfd sa] aerr]]| |] w2]; cbn [snd] in Hloop;
    try (cbn [snd]; congruence).
  unfold ret at 1 2. cbv beta iota. unfold bind at 1, assertSockaddrVM.
  destruct sa as [[cid port|]|];
    try (unfold ret, panic; cbv beta iota; cbn [snd]; congruence).
  unfold ret at 1. cbv beta iota.
  unfold newConn, sysConnFD_SetNonblocking, sysConnFD_setNonblocking,
    unix_SetNonblock, os_NewFile, allocFile, bind, sys, ret, to_error.
  cbn [log files cfd_fd].
  destruct (K _ _ (sys_setNonblock nfd true)); [|destruct (nfd <? 0)];
    cbn [snd log]; rewrite close_count_other by reflexivity; congruence.
Qed.

(** ** Accept with a timeout *)

(** X17: the loop of [Accept] hands a temporary error of the listener
    to nobody: whatever the timeout, an error it returns is not temporary
    and comes with no connection.  Without a timeout (no timer is armed
    then), when the first [k] calls of the listener's [Accept] report
    temporary errors and the next one returns a connection or another
    error, the loop, given more than [k] rounds, returns just that, after
    [k + 1] calls of the listener. *)
Theorem X17_Accept_retries_temporary_errors
    (temporary : error -> bool) (l_Accept : M (option Conn * option error)) :
  (forall timeout fuel w c e w',
      Accept temporary l_Accept timeout fuel w = (Done (c, Some e), w') ->
      c = None /\ temporary e = false)
  /\ (forall k fuel w c err,
        (forall i, (i < k)%nat ->
           exists c' e, fst (l_Accept (after_calls l_Accept i w)) = Done (c', Some e)
                        /\ temporary e = true) ->
        fst (l_Accept (after_calls l_Accept k w)) = Done (c, err) ->
        (forall e, err = Some e -> temporary e = false) ->
        (k < fuel)%nat ->
        Accept temporary l_Accept 0 fuel w
        = (Done (match err with Some _ => None | None => c end, err),
           after_calls l_Accept (S k) w)).
Proof.
  split.
  - intros timeout.
    induction fuel as [|fuel IH]; intros w c e w'; [discriminate|].
    cbn [Accept]. unfold bind.
    destruct (l_Accept w) as [[[c0 [e0|]]| |] w1]; try discriminate.
    destruct (temporary e0) eqn:Ht; [apply IH|].
    unfold ret. intros [= <- <- <-]. done.
  - induction k as [|k IH]; intros fuel w c err Htemp Hlast Hnot Hfuel;
      (destruct fuel as [|fuel]; [lia|]); cbn [Accept after_calls] in *; unfold bind.
    + destruct (l_Accept w) as [o w1]. cbn [fst snd] in *. subst o.
      destruct err as [e|]; [|reflexivity].
      by rewrite (Hnot e eq_refl).
    + destruct (Htemp 0%nat ltac:(lia)) as (c' & e & H0 & Ht). cbn [after_calls] in H0.
      destruct (l_Accept w) as [o w1] eqn:Hw. cbn [fst snd] in *. subst o.
      rewrite Ht. apply IH; [|exact Hlast|exact Hnot|lia].
      intros i Hi. destruct (Htemp (S i) ltac:(lia)) as (c'' & e' & H & Ht').
      cbn [after_calls] in H. rewrite Hw in H. cbn [snd] in H. eauto.
Qed.

(** ** Releasing a listener *)

(** X18: the first [Close] of a listener sends the kernel one close
    request for the listener's descriptor and returns the classification
    of its answer.  From then on [Close] and [SetDeadline] fail with an
    envelope whose cause is the canonical "use of closed network
    connection" error, without a request to the kernel; the listener's
    address is the source of the close envelope and the address of the set
    envelope. *)
Theorem X18_listener_close (self : VsockListener) (w : World) (file : File) :
  listen_file w (listener_fd (vl_listener self)) file ->
  closed file = false ->
  name file = "vsock-listen" ->
  exists w1,
    VsockListener_Close self w
    = (Done (VsockListener_opError self opClose
               (to_error (K _ (length (log w)) (sys_close (sysfd file))))), w1)
    /\ log w1 = (log w ++ [Call (sys_close (sysfd file))])%list
    /\ VsockListener_Close self w1
       = (Done (Some (OpError "close" "vsock" (Some (VsockListener_Addr self)) None
                        closedCause)), w1)
    /\ forall t,
         VsockListener_SetDeadline self t w1
         = (Done (Some (local_envelope "set" (VsockListener_Addr self) closedCause)),
            w1).
Proof.
  intros (h & Hh & Hl) Hcl Hname.
  assert (Hlt : (h < length (files w))%nat) by (by eapply lookup_lt_Some).
  exists (mkWorld (log w ++ [Call (sys_close (sysfd file))])
            (<[h := mkFile (sysfd file) (name file) true]> (files w))).
  split; [|split; [reflexivity|split; [|intros t]]].
  - unfold VsockListener_Close, listener_Close, sysListenFD_Close, os_File_Close,
      bind, getFile, markClosed, sys, ret.
    rewrite Hh, Hl, Hcl. cbn [log files]. f_equal. f_equal.
    unfold to_error. destruct (K _ _ (sys_close (sysfd file))) as [e|]; [|reflexivity].
    unfold VsockListener_opError, opError. cbn [unwrapPathError].
    rewrite Hname. reflexivity.
  - unfold VsockListener_Close, listener_Close, sysListenFD_Close, os_File_Close,
      bind, getFile, ret.
    rewrite Hh. cbn [files]. rewrite list_lookup_insert_eq by exact Hlt.
    cbn [closed name]. unfold VsockListener_opError, opError, local_envelope.
    cbn [unwrapPathError]. rewrite Hname. reflexivity.
  - unfold VsockListener_SetDeadline, listener_SetDeadline, sysListenFD_SetDeadline,
      sysListenFD_setDeadline, os_File_SetDeadline, bind, getFile, ret.
    rewrite Hh. cbn [files]. rewrite list_lookup_insert_eq by exact Hlt.
    cbn [closed]. reflexivity.
Qed.

(** ** Deadlines *)

(** X19: on an open connection each of [SetDeadline],
    [SetReadDeadline] and [SetWriteDeadline] reaches the setter of the file
    that matches its name: one request to the poller, for the connection's
    descriptor, with the time given and the mode for both directions, for
    reading or for writing.  The result is the classification of the
    poller's answer; the invalid-type error of the switch never occurs. *)
Theorem X19_deadline_reaches_matching_setter (c : Conn) (t : Z) (w : World)
    (file : File) :
  conn_file w c file -> closed file = false ->
  let run mode :=
    (Done (Conn_opError c opSet
             (K _ (length (log w)) (poll_setDeadline (sysfd file) t mode))),
     mkWorld (log w ++ [Call (poll_setDeadline (sysfd file) t mode)]) (files w)) in
  Conn_SetDeadline c t w = run deadline
  /\ Conn_SetReadDeadline c t w = run readDeadline
  /\ Conn_SetWriteDeadline c t w = run writeDeadline.
Proof.
  intros Hc Hcl.
  destruct (getFile_conn _ _ _ Hc) as (h & Hh & Hg).
  cbv zeta.
  repeat split;
    unfold Conn_SetDeadline, Conn_SetReadDeadline, Conn_SetWriteDeadline,
      sysConnFD_SetDeadline, sysConnFD_setDeadline, os_File_SetDeadline, bind, ret;
    try change (deadline =? deadline) with true;
    try change (readDeadline =? deadline) with false;
    try change (readDeadline =? readDeadline) with true;
    try change (writeDeadline =? deadline) with false;
    try change (writeDeadline =? readDeadline) with false;
    try change (writeDeadline =? writeDeadline) with true;
    cbv beta iota; rewrite Hg; cbv beta iota; rewrite Hcl; reflexivity.
Qed.

(** ** Listening, from the public entry point *)

(** X20: a listener returned by [Listen] comes with a nil error.  The
    context ID it was bound to is the one [ContextID] read from the device
    just before, the address it reports is the one the kernel gave for the
    bound socket, and its descriptor has an open file named
    "vsock-listen". *)
Theorem X20_Listen_success port w l err w' :
  Listen port w = (Done (Some l, err), w') ->
  err = None
  /\ exists cid w0 fd w1 lcid lport,
       ContextID_ w = (Done (cid, None), w0)
       /\ socket w0 = (Done (fd, None), w1)
       /\ log w' = (log w1 ++ [Call (sys_bind fd (unix.SockaddrVM cid
                                       (if (port =? 0)%N then unix.VMADDR_PORT_ANY
                                        else port)));
                               Call (sys_listen fd SOMAXCONN);
                               Call (sys_getsockname fd);
                               Call (sys_setNonblock fd true)])%list
       /\ K _ (length (log w1) + 2)%nat (sys_getsockname fd)
          = Ok (unix.SockaddrVM lcid lport)
       /\ VsockListener_Addr l = mkAddr lcid lport
       /\ (0 <= fd ->
           listen_file w' (listener_fd (vl_listener l))
             (mkFile fd "vsock-listen" false)).
Proof.
  unfold Listen. unfold bind at 1.
  destruct (ContextID_ w) as [[[cid [e|]]| |] w0] eqn:Hcid;
    try (unfold ret; intros [=]; fail).
  unfold bind at 1.
  destruct (listen cid port w0) as [[[l0 [e|]]| |] w2] eqn:Hl;
    try (unfold ret; intros [=]; fail).
  unfold ret. intros [= -> <- <-]. split; [reflexivity|].
  unfold listen, newListenFD in Hl.
  destruct (socket_returns w0) as ([fd serr] & w1 & Hs).
  unfold bind in Hl. rewrite Hs in Hl.
  destruct serr as [e|]; [discriminate Hl|]. unfold ret in Hl.
  pose proof (listenLinux_success _ _ _ _ _ _ _ Hl) as Hsucc. cbv zeta in Hsucc.
  destruct Hsucc as (lcid & lport & _ & Hlog & HK & Haddr & _).
  cbn [lfd_fd] in Hlog, HK.
  exists cid, w0, fd, w1, lcid, lport.
  split; [done|]. split; [done|]. split; [exact Hlog|]. split; [exact HK|].
  split; [exact Haddr|].
  intros Hfd.
  exact (listenLinux_listen_file (mkListenFD fd None) cid port w1 l None w2 Hfd Hl).
Qed.
(** ** Closing twice *)











End Package.

(** * The model on concrete inputs *)

(** C1: on a listener in non-blocking mode whose accept request fails
    with [EMFILE] (24), which is neither [EAGAIN] nor [ECONNABORTED],
    [Accept4] hands back descriptor -1, a nil address and a nil error: the
    failure is dropped.  [Accept] then returns no error to its caller
    either; it panics. *)
Theorem C1_accept_failure_is_dropped :
  let K := accept_answers (fun _ => Fail 24) quiet in
  let w' := mkWorld [Call (poll_prepareRead 3); Call (sys_accept4 3 unix.SOCK_CLOEXEC)]
              [mkFile 3 "vsock-listen" false] in
  K _ 1%nat (sys_accept4 3 unix.SOCK_CLOEXEC) = Fail 24
  /\ sysListenFD_Accept4 K 1 (listener_fd (vl_listener sample_listener))
       unix.SOCK_CLOEXEC sample_listener_world
     = (Done (Some (mkConnFD (-1) None), None, None), w')
  /\ VsockListener_Accept sample_errnoText K 1 sample_listener sample_listener_world
     = (Panic "interface conversion: unix.Sockaddr is nil, not *unix.SockaddrVM", w')
  /\ ~ (exists c e w'',
          VsockListener_Accept sample_errnoText K 1 sample_listener sample_listener_world
          = (Done (c, Some e), w'')).
Proof.
  cbv zeta. split; [reflexivity|]. split; [reflexivity|]. split; [reflexivity|].
  intros (c & e & w'' & H). vm_compute in H. discriminate H.
Qed.

(** C2: [listen] on a kernel whose [bind] fails with [EADDRINUSE] (98)
    returns the error after the requests socket and bind: descriptor 3 is
    never released.  On the sibling path, [dial] on a kernel whose
    [connect] fails with [ECONNREFUSED] (111) releases descriptor 3 before
    it returns, and so does [listen] when [getsockname] fails. *)
Theorem C2_listen_leaks_descriptor_on_bind_failure :
  let c_socket := Call (sys_socket 40 524289 0) in
  let c_bind := Call (sys_bind 3 (unix.SockaddrVM 3 1024)) in
  listen 128 (bind_answers (Some 98) quiet) 3 1024 boot
  = (Done (None, Some (Errno 98)), mkWorld [c_socket; c_bind] [])
  /\ released 3 [c_socket; c_bind] = false
  /\ dial (connect_answers (Some 111) quiet) 2 50000 boot
     = (Done (None, Some (Errno 111)),
        mkWorld [c_socket; Call (sys_connect 3 (unix.SockaddrVM 2 50000));
                 Call (sys_close 3)] [])
  /\ listen 128 (getsockname_answers (Fail 9) quiet) 3 1024 boot
     = (Done (None, Some (Errno 9)),
        mkWorld [c_socket; c_bind; Call (sys_listen 3 128);
                 Call (sys_getsockname 3); Call (sys_close 3)] []).
Proof. cbv zeta. repeat split; reflexivity. Qed.

(** C3: [Accept] panics.  After a successful [Listen] on port 1024,
    an accept request that fails with [EMFILE] (24) makes
    [VsockListener.Accept] panic in its type assertion; so does an
    [Accept] on a listener that was closed before. *)
Theorem C3_Accept_panics :
  let msg := "interface conversion: unix.Sockaddr is nil, not *unix.SockaddrVM" in
  (let K := accept_answers (fun _ => Fail 24) quiet in
   exists l w1 w2,
     Listen sample_errnoText 128 K 1024 boot = (Done (Some l, None), w1)
     /\ VsockListener_Accept sample_errnoText K 1 l w1 = (Panic msg, w2))
  /\ (exists l w1 w2,
        Listen sample_errnoText 128 quiet 1024 boot = (Done (Some l, None), w1)
        /\ VsockListener_Close sample_errnoText quiet l w1 = (Done None, w2)
        /\ VsockListener_Accept sample_errnoText quiet 1 l w2 = (Panic msg, w2)).
Proof.
  cbv zeta. split.
  - eexists _, _, _. split; reflexivity.
  - eexists _, _, _. split; [reflexivity|]. split; reflexivity.
Qed.

(** A path error of a foreign file keeps the cause it wraps even when
    its own text holds the phrase.  Such an error is none the package
    hands to the classifier. *)
Remark foreign_path_error_keeps_cause :
  let err := PathError "open" "/tmp/use of closed" (Errno 2) in
  Contains (Error sample_errnoText err) "use of closed" = true
  /\ opError sample_errnoText opRead (Some err) None None
     = Some (OpError "read" "vsock" None None (Errno 2))
  /\ ~ passed err.
Proof.
  cbv zeta. split; [reflexivity|]. split; [reflexivity|].
  intros H. inversion H as [e Hb | e | op name inner Hop Hname Hb]; subst.
  - discriminate Hb.
  - destruct Hop as [Ho | [Ho | [Ho | []]]]; discriminate Ho.
Qed.


(** C5 on the sample connection, with a read that reports [ENOTCONN]. *)
Lemma C5_read_witness :
  conn_file sample_conn_world sample_conn sample_conn_file
  /\ exists n err w',
       Conn_Read sample_errnoText (read_answers (inr (Errno unix.ENOTCONN)) quiet)
         sample_conn 16 sample_conn_world = (Done (n, err), w')
       /\ n = 0 /\ err = Some EOF.
Proof.
  assert (H : conn_file sample_conn_world sample_conn sample_conn_file).
  { exists 0%nat. repeat split; reflexivity. }
  split; [exact H|].
  destruct (C5_read_end_of_stream sample_errnoText
              (read_answers (inr (Errno unix.ENOTCONN)) quiet)
              sample_conn 16 sample_conn_world sample_conn_file H)
    as (n & err & w' & Hrun & Hopen & _).
  exists n, err, w'. split; [exact Hrun|].
  apply (proj1 (Hopen eq_refl) (Errno unix.ENOTCONN) eq_refl).
  right. reflexivity.
Defined.

(** C6 on the sample listener: two transient attempts, then a
    connection. *)
Example accept_after_two_transient_attempts :
  let K := accept_answers
             (fun t => if (t <? 2)%nat then Fail unix.EAGAIN
                       else if (t <? 4)%nat then Fail unix.ECONNABORTED
                       else Ok (4, unix.SockaddrVM 2 50000)) quiet in
  VsockListener_Accept sample_errnoText K 3 sample_listener sample_listener_world
  = (Done (Some (mkConn (mkConnFD 4 (Some 1%nat)) (mkAddr 3 1024) (mkAddr 2 50000)),
           None),
     mkWorld [Call (poll_prepareRead 3);
              Call (sys_accept4 3 unix.SOCK_CLOEXEC); Call (poll_waitRead 3);
              Call (sys_accept4 3 unix.SOCK_CLOEXEC); Call (poll_waitRead 3);
              Call (sys_accept4 3 unix.SOCK_CLOEXEC);
              Call (sys_setNonblock 4 true)]
       [mkFile 3 "vsock-listen" false; mkFile 4 "vsock:vm(3):1024" false]).
Proof. reflexivity. Qed.


(** C8 on the quiet kernel, asked for port 0: the listener reports the
    port the kernel resolved, 1024. *)
Lemma C8_listen_witness :
  let l := mkVsockListener (mkListener (mkListenFD 3 (Some 0%nat)) (mkAddr 3 1024)) in
  let w' := mkWorld [Call (sys_socket 40 524289 0);
                     Call (sys_bind 3 (unix.SockaddrVM 3 unix.VMADDR_PORT_ANY));
                     Call (sys_listen 3 128); Call (sys_getsockname 3);
                     Call (sys_setNonblock 3 true)]
              [mkFile 3 "vsock-listen" false] in
  listen 128 quiet 3 0 boot = (Done (Some l, None), w')
  /\ exists fd w0 lcid lport,
       socket quiet boot = (Done (fd, None), w0)
       /\ log w' = (log w0 ++ [Call (sys_bind fd (unix.SockaddrVM 3 unix.VMADDR_PORT_ANY));
                               Call (sys_listen fd 128);
                               Call (sys_getsockname fd);
                               Call (sys_setNonblock fd true)])%list
       /\ VsockListener_Addr l = mkAddr lcid lport
       /\ lport = 1024%N.
Proof.
  cbv zeta.
  assert (H : listen 128 quiet 3 0 boot
              = (Done (Some (mkVsockListener
                               (mkListener (mkListenFD 3 (Some 0%nat)) (mkAddr 3 1024))),
                       None),
                 mkWorld [Call (sys_socket 40 524289 0);
                          Call (sys_bind 3 (unix.SockaddrVM 3 unix.VMADDR_PORT_ANY));
                          Call (sys_listen 3 128); Call (sys_getsockname 3);
                          Call (sys_setNonblock 3 true)]
                   [mkFile 3 "vsock-listen" false])) by reflexivity.
  split; [exact H|].
  destruct (C8_listen_reports_bound_address 128 quiet 3 0 boot _ _ _ H)
    as (fd & w0 & lcid & lport & Hs & _ & Hlog & HK & Haddr & _).
  exists fd, w0, lcid, lport. split; [exact Hs|]. split; [exact Hlog|].
  split; [exact Haddr|]. injection HK as _ Hp. symmetry. exact Hp.
Defined.

(** C6 on the sample listener: after an [EAGAIN] and an [ECONNABORTED]
    the third attempt is accepted; three accept requests were issued. *)
Lemma C6_retry_witness :
  let K := accept_answers
             (fun t => if (t <? 2)%nat then Fail unix.EAGAIN
                       else if (t <? 4)%nat then Fail unix.ECONNABORTED
                       else Ok (4, unix.SockaddrVM 2 50000)) quiet in
  let lfd := listener_fd (vl_listener sample_listener) in
  transient_run K 3 unix.SOCK_CLOEXEC 1 2
  /\ exists w',
       sysListenFD_accept4 K 3 lfd unix.SOCK_CLOEXEC sample_listener_world
       = (Done (4, Some (unix.SockaddrVM 2 50000), None), w')
       /\ accept_count (log w') = 3%nat.
Proof.
  cbv zeta.
  assert (Hrun : transient_run
                   (accept_answers
                      (fun t => if (t <? 2)%nat then Fail unix.EAGAIN
                                else if (t <? 4)%nat then Fail unix.ECONNABORTED
                                else Ok (4, unix.SockaddrVM 2 50000)) quiet)
                   3 unix.SOCK_CLOEXEC 1 2).
  { intros i Hi. destruct i as [|[|i]]; [| |lia].
    - split; [exists unix.EAGAIN; split; [reflexivity|by left]|reflexivity].
    - split; [exists unix.ECONNABORTED; split; [reflexivity|by right]|reflexivity]. }
  split; [exact Hrun|].
  destruct (proj1 (proj2 (C6_transient_accept_is_retried sample_errnoText
              (accept_answers
                 (fun t => if (t <? 2)%nat then Fail unix.EAGAIN
                           else if (t <? 4)%nat then Fail unix.ECONNABORTED
                           else Ok (4, unix.SockaddrVM 2 50000)) quiet)))
              3%nat (listener_fd (vl_listener sample_listener)) unix.SOCK_CLOEXEC
              sample_listener_world (mkFile 3 "vsock-listen" false) 2%nat)
    as (w' & Hret & Hcount).
  - exists 0%nat. split; reflexivity.
  - reflexivity.
  - reflexivity.
  - exact Hrun.
  - reflexivity.
  - lia.
  - exists w'. split; [exact Hret|exact Hcount].
Defined.

(** * The further properties on concrete inputs *)

(** X2 on a read that fails with [ECONNRESET] (104): the envelope keeps
    the errno as its cause. *)
Lemma X2_keeps_cause_witness :
  let err := PathError "read" "vsock:vm(3):1024" (Errno 104) in
  stream_end (unwrapPathError err) = false
  /\ closed_like sample_errnoText (unwrapPathError err) = false
  /\ exists src dst,
       opError sample_errnoText opRead (Some err)
         (Some (mkAddr 3 1024)) (Some (mkAddr 2 50000))
       = Some (OpError "read" "vsock" src dst (Errno 104)).
Proof.
  cbv zeta. split; [reflexivity|]. split; [reflexivity|].
  exact (X2_opError_keeps_cause sample_errnoText opRead
           (PathError "read" "vsock:vm(3):1024" (Errno 104))
           (Some (mkAddr 3 1024)) (Some (mkAddr 2 50000)) eq_refl eq_refl).
Defined.

(** X4 on a write error of the sample connection's file. *)
Lemma X4_file_error_witness :
  let name := fileName (mkAddr 3 1024) in
  (name = "vsock-listen" \/ exists a, name = fileName a)
  /\ unwrapPathError (Errno 32) = Errno 32
  /\ opError sample_errnoText opWrite (Some (PathError "write" name (Errno 32))) None None
     = opError sample_errnoText opWrite (Some (Errno 32)) None None.
Proof.
  cbv zeta.
  assert (H : fileName (mkAddr 3 1024) = "vsock-listen"
              \/ exists a, fileName (mkAddr 3 1024) = fileName a)
    by (right; exists (mkAddr 3 1024); reflexivity).
  split; [exact H|]. split; [reflexivity|].
  exact (X4_file_errors_classified_by_cause sample_errnoText opWrite "write"
           (fileName (mkAddr 3 1024)) (Errno 32) None None H eq_refl).
Defined.

(** X6 on a kernel that refuses the close-on-exec flag: the socket is
    created by a second request and marked afterwards. *)
Lemma X6_socket_fallback_witness :
  let atomic := sys_socket 40 524289 0 in
  let plain := sys_socket 40 1 0 in
  let w' := mkWorld [Call atomic; Call plain; Call (sys_closeOnExec 3)] [] in
  socket old_kernel boot = (Done (3, None), w')
  /\ ((old_kernel _ 0%nat atomic = Ok 3 /\ log w' = [Call atomic])
      \/ (old_kernel _ 0%nat atomic = Fail unix.EINVAL
          /\ old_kernel _ 1%nat plain = Ok 3
          /\ log w' = [Call atomic; Call plain; Call (sys_closeOnExec 3)])).
Proof.
  cbv zeta. split; [reflexivity|].
  exact (X6_socket_close_on_exec old_kernel boot 3 _ eq_refl).
Defined.

(** X7 on the quiet kernel: the device is opened as descriptor 5, asked
    for the context ID and closed. *)
Lemma X7_contextID_witness :
  exists w',
    contextID quiet boot = (Done (3%N, None), w')
    /\ log w' = [Call (sys_open devVsock);
                 Call (sys_ioctlGetUint32 5 unix.IOCTL_VM_SOCKETS_GET_LOCAL_CID);
                 Call (sys_close 5)].
Proof.
  eexists. split; [reflexivity|].
  destruct (X7_contextID_closes_device quiet boot 3%N None _ eq_refl)
    as [(e & He & _) | (fd & Hfd & Hlog & _)]; [discriminate He|].
  injection Hfd as <-. exact Hlog.
Defined.

(** X8 on a kernel whose [connect] fails with [ECONNREFUSED] (111). *)
Lemma X8_dial_error_witness :
  let K := connect_answers (Some 111) quiet in
  let w' := mkWorld [Call (sys_socket 40 524289 0);
                     Call (sys_connect 3 (unix.SockaddrVM 2 50000));
                     Call (sys_close 3)] [] in
  dial K 2 50000 boot = (Done (None, Some (Errno 111)), w')
  /\ ((exists fd, socket K boot = (Done (fd, Some (Errno 111)), w'))
      \/ (exists fd w0 pre,
            socket K boot = (Done (fd, None), w0)
            /\ log w' = (log w0 ++ pre ++ [Call (sys_close fd)])%list)).
Proof.
  cbv zeta. split; [reflexivity|].
  exact (proj2 (X8_dial_error_releases (connect_answers (Some 111) quiet)
                  2 50000 boot None (Errno 111) _ eq_refl)).
Defined.

(** X9 on the quiet kernel. *)
Lemma X9_dial_witness :
  let c := mkConn (mkConnFD 3 (Some 0%nat)) (mkAddr 3 1024) (mkAddr 2 50000) in
  exists w',
    dial quiet 2 50000 boot = (Done (Some c, None), w')
    /\ exists fd w0 lcid lport,
         socket quiet boot = (Done (fd, None), w0)
         /\ log w' = (log w0 ++ [Call (sys_connect fd (unix.SockaddrVM 2 50000));
                                 Call (sys_getsockname fd);
                                 Call (sys_setNonblock fd true)])%list
         /\ local c = mkAddr lcid lport
         /\ (0 <= fd -> conn_file w' c (mkFile fd (fileName (mkAddr lcid lport)) false)).
Proof.
  cbv zeta. eexists. split; [reflexivity|].
  destruct (X9_dial_success quiet 2 50000 boot _ None _ eq_refl)
    as (fd & w0 & lcid & lport & Hs & _ & Hlog & _ & Hl & _ & _ & Hf).
  exists fd, w0, lcid, lport. split; [exact Hs|]. split; [exact Hlog|].
  split; [exact Hl|exact Hf].
Defined.

(** X10 on a machine without the device: [open] fails with [ENOENT]. *)
Lemma X10_Listen_without_device_witness :
  let K := open_answers (Fail 2) quiet in
  K _ (length (log boot)) (sys_open devVsock) = Fail 2
  /\ Listen sample_errnoText 128 K 1024 boot
     = (Done (None,
              Some (OpError "listen" "vsock" None None
                      (PathError "open" devVsock (Errno 2)))),
        mkWorld [Call (sys_open devVsock)] []).
Proof.
  cbv zeta. split; [reflexivity|].
  exact (X10_Listen_without_device sample_errnoText 128
           (open_answers (Fail 2) quiet) 1024 boot 2 eq_refl).
Defined.

(** X11 on a kernel whose [bind] fails with [EADDRINUSE] (98). *)
Lemma X11_Listen_failure_witness :
  let K := bind_answers (Some 98) quiet in
  let e := OpError "listen" "vsock" None (Some (mkAddr 3 1024)) (Errno 98) in
  exists w0 w',
    ContextID_ K boot = (Done (3%N, None), w0)
    /\ Listen sample_errnoText 128 K 1024 boot = (Done (None, Some e), w')
    /\ (e = EOF
        \/ exists cause,
             e = OpError "listen" "vsock" None (Some (mkAddr 3 1024)) cause).
Proof.
  cbv zeta. eexists _, _. split; [reflexivity|]. split; [reflexivity|].
  exact (proj2 (X11_Listen_failure_address sample_errnoText 128
                  (bind_answers (Some 98) quiet) 1024 boot 3%N _ None _ _
                  eq_refl eq_refl)).
Defined.

(** X12 on the sample connection once closed. *)
Lemma X12_use_after_close_witness :
  conn_file sample_closed_world sample_conn sample_closed_file
  /\ closed sample_closed_file = true
  /\ Conn_Read sample_errnoText quiet sample_conn 16 sample_closed_world
     = (Done (0, Some (pair_envelope "read" sample_conn closedCause)),
        sample_closed_world)
  /\ Conn_SetReadDeadline sample_errnoText quiet sample_conn 100 sample_closed_world
     = (Done (Some (local_envelope "set" (mkAddr 3 1024) closedCause)),
        sample_closed_world).
Proof.
  assert (H : conn_file sample_closed_world sample_conn sample_closed_file).
  { exists 0%nat. repeat split; reflexivity. }
  split; [exact H|]. split; [reflexivity|].
  destruct (X12_use_after_close sample_errnoText quiet sample_conn
              sample_closed_world sample_closed_file H eq_refl)
    as (Hread & _ & _ & _ & _ & Hset & _).
  split; [exact (Hread 16)|exact (Hset 100)].
Defined.

(** X13 on the sample connection: three calls of [Close], one close
    request. *)
Lemma X13_close_once_witness :
  conn_file sample_conn_world sample_conn sample_conn_file
  /\ closed sample_conn_file = false
  /\ log (after_calls (Conn_Close sample_errnoText quiet sample_conn) 3
            sample_conn_world)
     = [Call (sys_close 4)].
Proof.
  assert (H : conn_file sample_conn_world sample_conn sample_conn_file).
  { exists 0%nat. repeat split; reflexivity. }
  split; [exact H|]. split; [reflexivity|].
  exact (proj1 (X13_close_releases_once sample_errnoText quiet sample_conn
                  sample_conn_world sample_conn_file H eq_refl) 2%nat).
Defined.

(** X14 on the sample connection. *)
Lemma X14_half_close_witness :
  conn_file sample_conn_world sample_conn sample_conn_file
  /\ closed sample_conn_file = false
  /\ Conn_CloseRead sample_errnoText quiet sample_conn sample_conn_world
     = (Done None, mkWorld [Call (sys_shutdown 4 unix.SHUT_RD)] [sample_conn_file])
  /\ Conn_CloseWrite sample_errnoText quiet sample_conn sample_conn_world
     = (Done None, mkWorld [Call (sys_shutdown 4 unix.SHUT_WR)] [sample_conn_file]).
Proof.
  assert (H : conn_file sample_conn_world sample_conn sample_conn_file).
  { exists 0%nat. repeat split; reflexivity. }
  split; [exact H|]. split; [reflexivity|].
  exact (X14_half_close_requests sample_errnoText quiet sample_conn
           sample_conn_world sample_conn_file H eq_refl).
Defined.

(** X15 on the sample listener and the quiet kernel. *)
Lemma X15_Accept_witness :
  exists c w',
    VsockListener_Accept sample_errnoText quiet 1 sample_listener sample_listener_world
    = (Done (Some c, None), w')
    /\ local c = mkAddr 3 1024
    /\ remote c = mkAddr 2 50000
    /\ cfd_fd (conn_fd c) = 4
    /\ conn_file w' c (mkFile 4 "vsock:vm(3):1024" false).
Proof.
  eexists _, _. split; [reflexivity|].
  destruct (X15_Accept_connection sample_errnoText quiet 1 sample_listener
              sample_listener_world _ None _ eq_refl)
    as (_ & Hl & file & t & nfd & cid & port & pre & _ & _ & _ & HK & Hr & Hfd & _ & Hf).
  injection HK as <- <- <-.
  split; [exact Hl|]. split; [exact Hr|]. split; [exact Hfd|].
  apply Hf. discriminate.
Defined.

(** X18 on the sample listener. *)
Lemma X18_listener_close_witness :
  let file := mkFile 3 "vsock-listen" false in
  listen_file sample_listener_world (listener_fd (vl_listener sample_listener)) file
  /\ closed file = false
  /\ name file = "vsock-listen"
  /\ exists w1,
       VsockListener_Close sample_errnoText quiet sample_listener sample_listener_world
       = (Done None, w1)
       /\ log w1 = [Call (sys_close 3)]
       /\ VsockListener_Close sample_errnoText quiet sample_listener w1
          = (Done (Some (OpError "close" "vsock" (Some (mkAddr 3 1024)) None
                           closedCause)), w1)
       /\ forall t,
            VsockListener_SetDeadline sample_errnoText quiet sample_listener t w1
            = (Done (Some (local_envelope "set" (mkAddr 3 1024) closedCause)), w1).
Proof.
  cbv zeta.
  assert (H : listen_file sample_listener_world
                (listener_fd (vl_listener sample_listener))
                (mkFile 3 "vsock-listen" false)).
  { exists 0%nat. split; reflexivity. }
  split; [exact H|]. split; [reflexivity|]. split; [reflexivity|].
  exact (X18_listener_close sample_errnoText quiet sample_listener
           sample_listener_world (mkFile 3 "vsock-listen" false) H eq_refl eq_refl).
Defined.

(** X19 on the sample connection. *)
Lemma X19_deadline_witness :
  conn_file sample_conn_world sample_conn sample_conn_file
  /\ closed sample_conn_file = false
  /\ Conn_SetDeadline sample_errnoText quiet sample_conn 100 sample_conn_world
     = (Done None, mkWorld [Call (poll_setDeadline 4 100 deadline)] [sample_conn_file])
  /\ Conn_SetReadDeadline sample_errnoText quiet sample_conn 100 sample_conn_world
     = (Done None, mkWorld [Call (poll_setDeadline 4 100 readDeadline)]
                     [sample_conn_file])
  /\ Conn_SetWriteDeadline sample_errnoText quiet sample_conn 100 sample_conn_world
     = (Done None, mkWorld [Call (poll_setDeadline 4 100 writeDeadline)]
                     [sample_conn_file]).
Proof.
  assert (H : conn_file sample_conn_world sample_conn sample_conn_file).
  { exists 0%nat. repeat split; reflexivity. }
  split; [exact H|]. split; [reflexivity|].
  exact (X19_deadline_reaches_matching_setter sample_errnoText quiet sample_conn 100
           sample_conn_world sample_conn_file H eq_refl).
Defined.

(** X20 on the quiet kernel: the listener is bound to the context ID
    read from the device, 3. *)
Lemma X20_Listen_witness :
  exists l w',
    Listen sample_errnoText 128 quiet 1024 boot = (Done (Some l, None), w')
    /\ VsockListener_Addr l = mkAddr 3 1024
    /\ listen_file w' (listener_fd (vl_listener l)) (mkFile 3 "vsock-listen" false).
Proof.
  eexists _, _. split; [reflexivity|].
  destruct (X20_Listen_success sample_errnoText 128 quiet 1024 boot _ None _ eq_refl)
    as (_ & cid & w0 & fd & w1 & lcid & lport & _ & Hs & _ & HK & Haddr & Hf).
  injection Hs as <- <-. injection HK as <- <-.
  split; [exact Haddr|]. apply Hf. discriminate.
Defined.
